(** * Retrograde-period extraction (heydocbrown/earth-retrograde)

    A shallow embedding of the retrograde extraction code in
    [src/data/retrograde_calculator.py],
    [src/data/retrograde_calculator_1950_2050.py] and
    [src/data/generate_test_data.py].

    The source works on numpy arrays of IEEE doubles (ecliptic longitudes in
    degrees, Julian dates).  Here a double is an exact rational [Q]: the code
    only subtracts neighbouring longitudes, adds or subtracts 360 and compares
    with 180, -180 and 0, and it only copies timestamps.  The ephemeris
    (skyfield) is outside the repository: it enters as the arrays it hands to
    the scan. *)

From Stdlib Require Import String.
From Stdlib Require Import List Bool Arith ZArith QArith Lia Lqa Sorted.
Import ListNotations.

Local Open Scope Q_scope.

(** ** Float comparisons *)

(** [x < y] on two (non-NaN) array elements. *)
Definition Qltb (x y : Q) : bool := negb (Qle_bool y x).

(** ** [is_retrograde] (retrograde_calculator.py, lines 78-91;
       [is_earth_retrograde] in retrograde_calculator_1950_2050.py and the
       inlined lines 76-79 of generate_test_data.py are the same code) *)

(** [np.diff(a)]: [a[i+1] - a[i]], one element fewer than [a]; empty for an
    array of fewer than two elements. *)
Fixpoint np_diff (a : list Q) : list Q :=
  match a with
  | x :: ((y :: _) as tl) => (y - x) :: np_diff tl
  | _ => []
  end.

(** [diffs[diffs > 180] -= 360], on one element. *)
Definition wrap_above (d : Q) : Q := if Qltb 180 d then d - 360 else d.

(** [diffs[diffs < -180] += 360], on one element. *)
Definition wrap_below (d : Q) : Q := if Qltb d (-180) then d + 360 else d.

(** The two in-place updates run one after the other over the whole array:
    the second sees the result of the first. *)
Definition wraparound (diffs : list Q) : list Q :=
  map wrap_below (map wrap_above diffs).

Definition is_retrograde (ecliptic_longitudes : list Q) : list bool :=
  let diffs := np_diff ecliptic_longitudes in
  let diffs := wraparound diffs in
  map (fun d => Qltb d 0) diffs.

(** ** The scan (retrograde_calculator.py, lines 147-169) *)

(** One entry of [periods].  The source stores [start_jd], [end_jd] (the [tt]
    of the two [Time] objects) and the ISO dates [start], [end] that skyfield
    prints for the same two objects; the entry is determined by the two
    Julian dates. *)
Record Period : Type := mkPeriod { start_jd : Q; end_jd : Q }.

(** The loop's variables; [periods] is the list the loop appends to. *)
Record ScanState : Type := mkScan {
  in_retrograde : bool;
  start_idx : option nat;
  periods : list Period
}.

(** How a scan ends: it runs through, or an index is out of range
    ([IndexError], with the periods appended so far still in the list). *)
Inductive Outcome : Type :=
| Done (st : ScanState)
| Raised (ps : list Period).

(** The body of [for i, is_retro in enumerate(retrograde)]. *)
Definition loop_body (times : list Q) (i : nat) (is_retro : bool)
    (st : ScanState) : Outcome :=
  if is_retro && negb (in_retrograde st) then
    Done (mkScan true (Some i) (periods st))
  else if negb is_retro && in_retrograde st then
    match start_idx st with
    | Some s =>
        match nth_error times s, nth_error times i with
        | Some start_time, Some end_time =>
            Done (mkScan false (start_idx st)
                    (periods st ++ [mkPeriod start_time end_time]))
        | _, _ => Raised (periods st)
        end
    | None => Done (mkScan false None (periods st))
    end
  else Done st.

(** The loop over [enumerate(retrograde)], from index [i] on. *)
Fixpoint scan_from (times : list Q) (i : nat) (retrograde : list bool)
    (st : ScanState) : Outcome :=
  match retrograde with
  | [] => Done st
  | is_retro :: rest =>
      match loop_body times i is_retro st with
      | Done st' => scan_from times (S i) rest st'
      | Raised ps => Raised ps
      end
  end.

(** [in_retrograde = False; start_idx = None] and the loop, appending to an
    existing [periods]. *)
Definition scan (times : list Q) (retrograde : list bool)
    (periods0 : list Period) : Outcome :=
  scan_from times 0 retrograde (mkScan false None periods0).

(** ** [find_retrograde_periods] (retrograde_calculator.py, lines 93-180;
       [find_earth_retrograde_periods], retrograde_calculator_1950_2050.py,
       lines 80-153, is the same loop with its own constants) *)

(** What the ephemeris hands to the scan for one chunk: the [times] array and
    [lon.degrees]. *)
Record Chunk : Type := mkChunk { times : list Q; longitudes : list Q }.

(** What is in [periods] once the scan is over, whichever way it ended. *)
Definition periods_after (o : Outcome) : list Period :=
  match o with
  | Done st => periods st
  | Raised ps => ps
  end.

(** Lines 144-178 for one chunk.  A run still open after the loop is left
    alone ([pass], lines 171-174); an exception is printed and the loop over
    the chunks goes on, [periods] keeping what was appended. *)
Definition scan_chunk (c : Chunk) (periods0 : list Period) : list Period :=
  periods_after (scan (times c) (is_retrograde (longitudes c)) periods0).

(** [range(start, stop, step)] for a positive [step]. *)
Definition py_range (start stop step : Z) : list Z :=
  map (fun k => (start + Z.of_nat k * step)%Z)
      (seq 0 (Z.to_nat ((stop - start + step - 1) / step))).

Section Finder.
Variables START_YEAR END_YEAR chunk_years : Z.

(** Lines 104-141: the time array of the chunk, the choice of ephemeris,
    the body looked up and observed.  [None] when the chunk is skipped
    ([KeyError], or an exception before the scan). *)
Variable observe : Z -> Z -> option Chunk.

Definition chunk_end (chunk_start : Z) : Z :=
  Z.min (chunk_start + chunk_years) END_YEAR.

Definition observed (chunk_start : Z) : option Chunk :=
  observe chunk_start (chunk_end chunk_start).

(** One turn of [for chunk_start in range(START_YEAR, END_YEAR, chunk_years)]. *)
Definition chunk_step (periods0 : list Period) (chunk_start : Z)
    : list Period :=
  match observed chunk_start with
  | None => periods0
  | Some c => scan_chunk c periods0
  end.

Definition find_retrograde_periods : list Period :=
  fold_left chunk_step (py_range START_YEAR END_YEAR chunk_years) [].

(** The samples the scan sees over the whole range, in processing order. *)
Definition observed_chunks : list Chunk :=
  flat_map (fun chunk_start =>
              match observed chunk_start with
              | None => []
              | Some c => [c]
              end)
           (py_range START_YEAR END_YEAR chunk_years).
End Finder.

(** ** The time window of a chunk (lines 104-106) *)

Section Windows.
(** [self.ts.utc(year, month, day).tt]: skyfield's Julian date of a calendar
    date. *)
Variable utc_tt : Z -> Z -> Z -> Q.
Variables END_YEAR chunk_years : Z.

(** [start_date = self.ts.utc(chunk_start, 1, 1)] *)
Definition start_date (chunk_start : Z) : Q := utc_tt chunk_start 1 1.

(** [end_date = self.ts.utc(chunk_end, 12, 31)] *)
Definition end_date (chunk_start : Z) : Q :=
  utc_tt (chunk_end END_YEAR chunk_years chunk_start) 12 31.
End Windows.

(** ** The aggregate output ([calculate_all_retrogrades], lines 182-209) *)

Module Result.
(** [{'periods': ..., 'count': ..., 'average_per_year': ...}] *)
Record t : Type := mk {
  periods : list Period;
  count : Z;
  average_per_year : Q
}.
End Result.

(** Python's [a / b] on two ints: [ZeroDivisionError] for [b = 0]. *)
Definition py_truediv (a b : Z) : option Q :=
  if (b =? 0)%Z then None else Some (inject_Z a / inject_Z b).

Definition len {A : Type} (l : list A) : Z := Z.of_nat (length l).

(** [len(periods) / (END_YEAR - START_YEAR) if periods else 0] *)
Definition average_per_year (START_YEAR END_YEAR : Z)
    (periods0 : list Period) : option Q :=
  match periods0 with
  | [] => Some 0
  | _ :: _ => py_truediv (len periods0) (END_YEAR - START_YEAR)
  end.

(** A key of [PLANETS] / [OBSERVERS]: a body name or an asteroid number. *)
Inductive BodyKey : Type :=
| Name (s : string)
| Number (n : Z).

(** [d[k] = v] on a dict kept in insertion order. *)
Fixpoint dict_set {V : Type} (d : list (string * V)) (k : string) (v : V)
    : list (string * V) :=
  match d with
  | [] => [(k, v)]
  | (k', v') :: rest =>
      if String.eqb k' k then (k, v) :: rest else (k', v') :: dict_set rest k v
  end.

Section Aggregate.
Variables START_YEAR END_YEAR chunk_years : Z.
Variable PLANETS : list (string * BodyKey).

(** The ephemeris, per body. *)
Variable ephemeris : string -> BodyKey -> Z -> Z -> option Chunk.

(** The dict built for one body; [None] is an uncaught
    [ZeroDivisionError]. *)
Definition planet_entry (planet_name : string) (planet_key : BodyKey)
    : option Result.t :=
  let periods0 :=
    find_retrograde_periods START_YEAR END_YEAR chunk_years
      (ephemeris planet_name planet_key) in
  match average_per_year START_YEAR END_YEAR periods0 with
  | Some avg => Some (Result.mk periods0 (len periods0) avg)
  | None => None
  end.

(** [results['planets']] after the loop over [PLANETS.items()]. *)
Definition calculate_all_retrogrades : option (list (string * Result.t)) :=
  fold_left
    (fun acc item =>
       match acc with
       | None => None
       | Some planets =>
           match planet_entry (fst item) (snd item) with
           | Some entry => Some (dict_set planets (fst item) entry)
           | None => None
           end
       end)
    PLANETS (Some []).
End Aggregate.

(** The constants of retrograde_calculator.py. *)
Module Calculator.
Definition START_YEAR : Z := (-10000)%Z.
Definition END_YEAR : Z := 10000%Z.
Definition chunk_years : Z := 100%Z.
Definition PLANETS : list (string * BodyKey) :=
  [ ("mercury", Name "MERCURY BARYCENTER");
    ("venus", Name "VENUS BARYCENTER");
    ("mars", Name "MARS BARYCENTER");
    ("jupiter", Name "JUPITER BARYCENTER");
    ("saturn", Name "SATURN BARYCENTER");
    ("uranus", Name "URANUS BARYCENTER");
    ("neptune", Name "NEPTUNE BARYCENTER");
    ("pluto", Name "PLUTO BARYCENTER");
    ("chiron", Number 2060) ]%string.
Definition find_retrograde_periods :=
  find_retrograde_periods START_YEAR END_YEAR chunk_years.
Definition calculate_all_retrogrades :=
  calculate_all_retrogrades START_YEAR END_YEAR chunk_years PLANETS.
End Calculator.

(** The constants of retrograde_calculator_1950_2050.py. *)
Module Calculator1950.
Definition START_YEAR : Z := 1950%Z.
Definition END_YEAR : Z := 2050%Z.
Definition chunk_years : Z := 10%Z.
Definition OBSERVERS : list (string * BodyKey) := Calculator.PLANETS.
Definition find_earth_retrograde_periods :=
  find_retrograde_periods START_YEAR END_YEAR chunk_years.
Definition calculate_all_retrogrades :=
  calculate_all_retrogrades START_YEAR END_YEAR chunk_years OBSERVERS.
End Calculator1950.

(** ** generate_test_data.py: one pass over the year 2024 *)

Module GenerateTestData.
Definition START_YEAR : Z := 2024%Z.
Definition END_YEAR : Z := 2024%Z.

(** The body of the loop of lines 86-97: the test for [start_idx] sits in
    the [elif] condition. *)
Definition loop_body (times : list Q) (i : nat) (is_retro : bool)
    (st : ScanState) : Outcome :=
  if is_retro && negb (in_retrograde st) then
    Done (mkScan true (Some i) (periods st))
  else
    match start_idx st with
    | Some s =>
        if negb is_retro && in_retrograde st then
          match nth_error times s, nth_error times i with
          | Some start_time, Some end_time =>
              Done (mkScan false (start_idx st)
                      (periods st ++ [mkPeriod start_time end_time]))
          | _, _ => Raised (periods st)
          end
        else Done st
    | None => Done st
    end.

Fixpoint scan_from (times : list Q) (i : nat) (retrograde : list bool)
    (st : ScanState) : Outcome :=
  match retrograde with
  | [] => Done st
  | is_retro :: rest =>
      match loop_body times i is_retro st with
      | Done st' => scan_from times (S i) rest st'
      | Raised ps => Raised ps
      end
  end.

(** [times[-1]] *)
Definition last_time (times : list Q) : option Q :=
  nth_error times (pred (length times)).

(** Lines 99-106: a run still open after the loop is closed at the last
    sample.  [None] is an [IndexError]. *)
Definition close_open_run (times : list Q) (st : ScanState)
    : option (list Period) :=
  if in_retrograde st then
    match start_idx st with
    | Some s =>
        match nth_error times s, last_time times with
        | Some start_time, Some end_time =>
            Some (periods st ++ [mkPeriod start_time end_time])
        | _, _ => None
        end
    | None => Some (periods st)
    end
  else Some (periods st).

(** Lines 75-106: [periods] for one observer; [None] when an exception
    leaves the [try] block. *)
Definition extract_periods (times longitudes : list Q)
    : option (list Period) :=
  match scan_from times 0 (is_retrograde longitudes) (mkScan false None []) with
  | Done st => close_open_run times st
  | Raised _ => None
  end.

End GenerateTestData.

(** ** The loop as a transition system *)

(** A configuration: the index the loop is at and its variables. *)
Definition Config : Type := (nat * ScanState)%type.

Section Transitions.
Variable times0 : list Q.
Variable retrograde : list bool.

(** One turn of the loop of lines 150-169, branch by branch. *)
Inductive turn : Config -> Config -> Prop :=
| turn_start i st :
    nth_error retrograde i = Some true ->
    in_retrograde st = false ->
    turn (i, st) (S i, mkScan true (Some i) (periods st))
| turn_end i st s start_time end_time :
    nth_error retrograde i = Some false ->
    in_retrograde st = true ->
    start_idx st = Some s ->
    nth_error times0 s = Some start_time ->
    nth_error times0 i = Some end_time ->
    turn (i, st)
         (S i, mkScan false (Some s)
                 (periods st ++ [mkPeriod start_time end_time]))
| turn_end_unset i st :
    nth_error retrograde i = Some false ->
    in_retrograde st = true ->
    start_idx st = None ->
    turn (i, st) (S i, mkScan false None (periods st))
| turn_idle i st r :
    nth_error retrograde i = Some r ->
    in_retrograde st = r ->
    turn (i, st) (S i, st).

(** The loop from a configuration to the list it leaves in [periods]:
    through the last flag, or up to an [IndexError]. *)
Inductive leaves : Config -> list Period -> Prop :=
| leaves_done i st :
    nth_error retrograde i = None ->
    leaves (i, st) (periods st)
| leaves_raise i st s :
    nth_error retrograde i = Some false ->
    in_retrograde st = true ->
    start_idx st = Some s ->
    nth_error times0 s = None \/ nth_error times0 i = None ->
    leaves (i, st) (periods st)
| leaves_turn c c' ps :
    turn c c' -> leaves c' ps -> leaves c ps.
End Transitions.

(** A run of the extractor on one array of samples. *)
Definition extraction (c : Chunk) (ps : list Period) : Prop :=
  leaves (times c) (is_retrograde (longitudes c))
         (0%nat, mkScan false None []) ps.

(** ** The classification in the words of the specification *)

(** Subtract 360 when [delta > 180], add 360 when [delta < -180]. *)
Definition normalized_delta (delta : Q) : Q :=
  if Qltb 180 delta then delta - 360
  else if Qltb delta (-180) then delta + 360
  else delta.

(** ** Ordered timestamps *)

Definition strictly_increasing (a : list Q) : Prop := StronglySorted Qlt a.


(** The flags from [a] (inclusive) to [b] (exclusive) are all retrograde,
    flag [b] is not, and no retrograde flag sits just before [a]: a maximal
    run closed at [b]. *)
Definition closed_run (retrograde : list bool) (a b : nat) : Prop :=
  (a < b)%nat /\
  (forall k, (a <= k < b)%nat -> nth_error retrograde k = Some true) /\
  nth_error retrograde b = Some false /\
  (a = 0%nat \/ nth_error retrograde (pred a) = Some false).

(** ** The carry-forward policy, in the words of the specification *)

(** A sample: its timestamp and its angular position. *)
Abbreviation Sample := (Q * Q)%type (only parsing).

(** What is carried from one window into the next: the last sample seen,
    the start timestamp of the run in progress, and the intervals emitted so
    far. *)
Record Carry : Type := mkCarry {
  previous : option Sample;
  open_since : option Q;
  emitted : list Period
}.

(** The scan resumed at one more sample, as a continuation of the same
    series: the pair (previous sample, this sample) is classified; a run
    starts at the previous sample, or the open run is emitted with the
    previous sample as its end. *)
Definition feed (st : Carry) (sample : Sample) : Carry :=
  match previous st with
  | None => mkCarry (Some sample) (open_since st) (emitted st)
  | Some (t, lon) =>
      match Qltb (normalized_delta (snd sample - lon)) 0, open_since st with
      | true, None => mkCarry (Some sample) (Some t) (emitted st)
      | false, Some start_time =>
          mkCarry (Some sample) None
                  (emitted st ++ [mkPeriod start_time t])
      | _, _ => mkCarry (Some sample) (open_since st) (emitted st)
      end
  end.

Definition feed_window (st : Carry) (window : list Sample) : Carry :=
  fold_left feed window st.

(** At the absolute end of the requested range an open run is closed at the
    last sample. *)
Definition finish (st : Carry) : list Period :=
  match open_since st, previous st with
  | Some start_time, Some (t, _) => emitted st ++ [mkPeriod start_time t]
  | _, _ => emitted st
  end.

Definition carry_forward (windows : list (list Sample)) : list Period :=
  finish (fold_left feed_window windows (mkCarry None None [])).

(** The full series in one pass, as generate_test_data.py processes it. *)
Definition one_pass (series : list Sample) : option (list Period) :=
  GenerateTestData.extract_periods (map fst series) (map snd series).

(** The start timestamp of the run the scan has open. *)
Definition open_start (times0 : list Q) (st : ScanState) : option Q :=
  if in_retrograde st then
    match start_idx st with
    | Some s => nth_error times0 s
    | None => None
    end
  else None.

(** ** Sample data *)

Module Examples.


(** An ephemeris that yields [c1] for the chunk starting in year [y1],
    [c2] for the chunk starting in year [y2] and nothing for the others. *)
Definition two_chunks (y1 y2 : Z) (c1 c2 : Chunk) (chunk_start chunk_end : Z)
    : option Chunk :=
  if (chunk_start =? y1)%Z then Some c1
  else if (chunk_start =? y2)%Z then Some c2
  else None.



(** Two windows that share the dates 2 to 6, as the windows of two
    successive chunks share a year; the shared samples hold two runs. *)
Definition overlapping_a : Chunk :=
  mkChunk [0; 1; 2; 3; 4; 5; 6] [10; 11; 12; 11; 12; 11; 12].
Definition overlapping_b : Chunk :=
  mkChunk [2; 3; 4; 5; 6; 7; 8] [12; 11; 12; 11; 12; 13; 14].

(** Two windows with one closed run each. *)
Definition window_a : Chunk := mkChunk [0; 1; 2; 3] [10; 9; 11; 12].
Definition window_b : Chunk := mkChunk [4; 5; 6] [8; 7; 9].
End Examples.

(** ** Invariants of the scan *)

(** A state whose list is prefixed by the periods of earlier chunks. *)
Definition push (ps0 : list Period) (st : ScanState) : ScanState :=
  mkScan (in_retrograde st) (start_idx st) (ps0 ++ periods st).

Definition push_outcome (ps0 : list Period) (o : Outcome) : Outcome :=
  match o with
  | Done st => Done (push ps0 st)
  | Raised ps => Raised (ps0 ++ ps)
  end.

(** [start_idx] is a valid index of [times]. *)
Definition start_in_range (times0 : list Q) (st : ScanState) : Prop :=
  forall s, start_idx st = Some s -> (s < length times0)%nat.

Section Runs.
Variable times0 : list Q.
Variable retrograde : list bool.

(** [p] is the interval of the closed run from [a] to [b]. *)
Definition period_run (p : Period) (a b : nat) : Prop :=
  closed_run retrograde a b /\
  nth_error times0 a = Some (start_jd p) /\
  nth_error times0 b = Some (end_jd p).

(** [chain ps n]: the periods are the intervals of successive closed runs,
    each starting after the previous one has ended, the last one ending
    before index [n]. *)
Inductive chain : list Period -> nat -> Prop :=
| chain_nil : chain [] 0
| chain_snoc ps n p a b :
    chain ps n -> (n <= a)%nat -> period_run p a b ->
    chain (ps ++ [p]) (S b).

(** A run that started at [s] and is still open before index [i]. *)
Definition open_run (s i : nat) : Prop :=
  (s < i)%nat /\
  (forall k, (s <= k < i)%nat -> nth_error retrograde k = Some true) /\
  (s = 0%nat \/ nth_error retrograde (pred s) = Some false).

(** What holds of the loop's variables before the turn for index [i]. *)
Definition scan_inv (c : Config) : Prop :=
  exists n, chain (periods (snd c)) n /\
    if in_retrograde (snd c)
    then exists s, start_idx (snd c) = Some s /\ (n <= s)%nat /\
                   open_run s (fst c)
    else (n <= fst c)%nat /\
         (fst c = 0%nat \/ nth_error retrograde (pred (fst c)) = Some false).
End Runs.

(** ** What an entry of the aggregate output satisfies *)


(** Each period ends strictly before the next one starts. *)
Definition disjoint_in_order (ps : list Period) : Prop :=
  forall k p q, nth_error ps k = Some p -> nth_error ps (S k) = Some q ->
                end_jd p < start_jd q.

(** * Around the extraction: chunks, ephemerides, time arrays and the scripts

    The chunk loop and the choice of ephemeris of the two calculators, the
    time array [np.linspace] builds for a chunk, the results of
    [generate_test_data.py], and the scans of
    [src/data/test_mercury_retrograde.py],
    [src/scripts/debug_chiron_calculation.py] and
    [src/scripts/find_chiron_ephemeris.py]. *)

(** ** The choice of ephemeris (retrograde_calculator.py, lines 31-33, 71-76,
       113-114) *)

Definition DE440_START : Z := 1550%Z.
Definition DE440_END : Z := 2650%Z.

(** The two ephemerides loaded by [RetrogradeFinder.__init__]. *)
Inductive EphemerisId : Type :=
| DE440
| DE441.

(** [get_ephemeris_and_earth(year)]: the ephemeris and its [earth] come as a
    pair, named here by the ephemeris. *)
Definition get_ephemeris_and_earth (year : Z) : EphemerisId :=
  if ((DE440_START <=? year) && (year <=? DE440_END))%Z then DE440 else DE441.

(** [mid_year = (chunk_start + chunk_end) // 2] *)
Definition mid_year (chunk_start chunk_end : Z) : Z :=
  ((chunk_start + chunk_end) / 2)%Z.

(** The ephemeris the chunk that starts in [chunk_start] is computed with. *)
Definition chunk_ephemeris (chunk_start : Z) : EphemerisId :=
  get_ephemeris_and_earth
    (mid_year chunk_start
       (chunk_end Calculator.END_YEAR Calculator.chunk_years chunk_start)).

(** ** The time array of a chunk (retrograde_calculator.py, lines 108-110;
       retrograde_calculator_1950_2050.py, lines 95-97) *)

(** [int(x)] on a float: truncation toward zero. *)
Definition py_int (x : Q) : Z := Z.quot (Qnum x) (Zpos (Qden x)).

(** [np.arange(0, num)] *)
Definition np_arange (num : Z) : list Q :=
  map (fun i => inject_Z (Z.of_nat i)) (seq 0 (Z.to_nat num)).

(** [y[-1] = stop] *)
Definition set_last (y : list Q) (stop : Q) : list Q :=
  match y with
  | [] => []
  | _ :: _ => removelast y ++ [stop]
  end.

(** [np.linspace(start, stop, num)], the endpoint included: [num] samples
    [i * step + start] with [step = (stop - start) / (num - 1)], the last one
    set to [stop].  [None] is the [ValueError] raised for a negative
    [num]. *)
Definition np_linspace (start stop : Q) (num : Z) : option (list Q) :=
  if (num <? 0)%Z then None
  else
    let div := (num - 1)%Z in
    let delta := stop - start in
    let y := np_arange num in
    if (0 <? div)%Z then
      let step := delta / inject_Z div in
      let y :=
        if Qeq_bool step 0
        then map (fun i => i / inject_Z div * delta) y
        else map (fun i => i * step) y in
      let y := map (fun v => v + start) y in
      Some (if (1 <? num)%Z then set_last y stop else y)
    else
      Some (map (fun v => v + start) (map (fun i => i * delta) y)).

Module CalculatorWindow.
(** [num_days = int((end_date.tt - start_date.tt) * 365.25)] *)
Definition num_days (start_tt end_tt : Q) : Z :=
  py_int ((end_tt - start_tt) * 365.25).

(** [times = self.ts.tt_jd(np.linspace(start_date.tt, end_date.tt, num_days))] *)
Definition times (start_tt end_tt : Q) : option (list Q) :=
  np_linspace start_tt end_tt (num_days start_tt end_tt).
End CalculatorWindow.

Module Calculator1950Window.
(** [num_days = int((end_date.tt - start_date.tt))] *)
Definition num_days (start_tt end_tt : Q) : Z := py_int (end_tt - start_tt).

Definition times (start_tt end_tt : Q) : option (list Q) :=
  np_linspace start_tt end_tt (num_days start_tt end_tt).
End Calculator1950Window.

(** The grid [i * step + start] of a positive step. *)
Definition grid (start step : Q) (i : nat) : Q :=
  inject_Z (Z.of_nat i) * step + start.

(** ** The chunks as the finders build them *)

(** What the lines before the scan make of one chunk: the chunk is skipped
    ([continue]), an exception leaves the finder, or samples reach the
    scan. *)
Inductive Observed : Type :=
| Skipped
| Failed
| Sampled (c : Chunk).

(** The loop over the chunks when a chunk may fail: [None] is the exception
    that leaves the finder. *)
Definition find_or_fail (START_YEAR END_YEAR chunk_years : Z)
    (observe : Z -> Z -> Observed) : option (list Period) :=
  fold_left
    (fun acc chunk_start =>
       match acc with
       | None => None
       | Some periods0 =>
           match observe chunk_start
                   (chunk_end END_YEAR chunk_years chunk_start) with
           | Skipped => Some periods0
           | Failed => None
           | Sampled c => Some (scan_chunk c periods0)
           end
       end)
    (py_range START_YEAR END_YEAR chunk_years) (Some []).

(** A chunk that does not fail, as the chunk loop of the claims sees it. *)
Definition observed_or_skipped (o : Observed) : option Chunk :=
  match o with
  | Sampled c => Some c
  | Skipped | Failed => None
  end.

(** retrograde_calculator.py, [RetrogradeFinder.find_retrograde_periods],
    lines 101-141. *)
Module RetrogradeFinder.
Section Finder.
(** A body object of skyfield. *)
Variable Body : Type.

(** [self.eph_440[key]], [self.eph_441[key]]: [None] is [KeyError]. *)
Variables eph_440 eph_441 : BodyKey -> option Body.

(** [self.earth_440], [self.earth_441] *)
Variables earth_440 earth_441 : Body.

(** [self.ts.utc(year, month, day).tt] *)
Variable utc_tt : Z -> Z -> Z -> Q.

(** [origin.at(times).observe(target).ecliptic_latlon()], the degrees of
    the longitude; [None] is an exception. *)
Variable observe_longitudes : Body -> Body -> list Q -> option (list Q).

Definition eph_of (id : EphemerisId) : BodyKey -> option Body :=
  match id with
  | DE440 => eph_440
  | DE441 => eph_441
  end.

Definition earth_of (id : EphemerisId) : Body :=
  match id with
  | DE440 => earth_440
  | DE441 => earth_441
  end.

(** [other_eph = self.eph_441 if eph == self.eph_440 else self.eph_440] *)
Definition other_eph (id : EphemerisId) : EphemerisId :=
  match id with
  | DE440 => DE441
  | DE441 => DE440
  end.

(** Lines 116-132: the planet from the chosen ephemeris, else from the
    other one; [None] when neither has it. *)
Definition lookup_planet (id : EphemerisId) (planet_key : BodyKey)
    : option Body :=
  match eph_of id planet_key with
  | Some planet => Some planet
  | None => eph_of (other_eph id) planet_key
  end.

(** Lines 104-141 and 176-178 for one chunk. *)
Definition observe_planet (planet_key : BodyKey)
    (chunk_start chunk_end0 : Z) : Observed :=
  match CalculatorWindow.times (utc_tt chunk_start 1 1)
                               (utc_tt chunk_end0 12 31) with
  | None => Failed
  | Some times0 =>
      let id := get_ephemeris_and_earth (mid_year chunk_start chunk_end0) in
      match lookup_planet id planet_key with
      | None => Skipped
      | Some planet =>
          match observe_longitudes (earth_of id) planet times0 with
          | None => Skipped
          | Some lon => Sampled (mkChunk times0 lon)
          end
      end
  end.

Definition find_retrograde_periods (planet_key : BodyKey)
    : option (list Period) :=
  find_or_fail Calculator.START_YEAR Calculator.END_YEAR
               Calculator.chunk_years (observe_planet planet_key).
End Finder.
End RetrogradeFinder.

(** retrograde_calculator_1950_2050.py,
    [EarthRetrogradeFinder.find_earth_retrograde_periods], lines 88-126. *)
Module EarthRetrogradeFinder.
Section Finder.
Variable Body : Type.

(** [self.eph[key]] *)
Variable eph : BodyKey -> option Body.

(** [self.asteroid_eph]: [None] when no asteroid file could be loaded. *)
Variable asteroid_eph : option (BodyKey -> option Body).

Variable utc_tt : Z -> Z -> Z -> Q.
Variable observe_longitudes : Body -> Body -> list Q -> option (list Q).

(** Lines 120-126, 149-151: the positions, or the chunk skipped on an
    exception. *)
Definition sample (observer earth : Body) (times0 : list Q) : Observed :=
  match observe_longitudes observer earth times0 with
  | None => Skipped
  | Some lon => Sampled (mkChunk times0 lon)
  end.

(** Lines 91-126 for one chunk.  The two lookups in the asteroid ephemeris
    and the lookup of ['earth'] in the main one are outside any [try]. *)
Definition observe_earth (observer_name : string) (observer_key : BodyKey)
    (chunk_start chunk_end0 : Z) : Observed :=
  match Calculator1950Window.times (utc_tt chunk_start 1 1)
                                   (utc_tt chunk_end0 12 31) with
  | None => Failed
  | Some times0 =>
      if String.eqb observer_name "chiron" then
        match asteroid_eph with
        | None => Skipped
        | Some asteroids =>
            match asteroids (Name "earth") with
            | None => Failed
            | Some earth =>
                match asteroids observer_key with
                | None => Failed
                | Some observer => sample observer earth times0
                end
            end
        end
      else
        match eph (Name "earth") with
        | None => Failed
        | Some earth =>
            match eph observer_key with
            | None => Skipped
            | Some observer => sample observer earth times0
            end
        end
  end.

Definition find_earth_retrograde_periods (observer_name : string)
    (observer_key : BodyKey) : option (list Period) :=
  find_or_fail Calculator1950.START_YEAR Calculator1950.END_YEAR
               Calculator1950.chunk_years
               (observe_earth observer_name observer_key).
End Finder.
End EarthRetrogradeFinder.

(** ** debug_chiron_calculation.py, lines 63-73 *)

(** [retrograde_days = np.sum(diffs < 0)] *)
Definition retrograde_days (longitudes0 : list Q) : nat :=
  count_occ bool_dec (is_retrograde longitudes0) true.

(** The retrograde flags among the first [n]. *)
Definition retrograde_before (retrograde : list bool) (n : nat) : nat :=
  count_occ bool_dec (firstn n retrograde) true.

(** ** generate_test_data.py, [main], lines 51-124 *)

Module GenerateTestDataMain.
Definition OBSERVERS : list (string * BodyKey) := Calculator.PLANETS.

Section Main.
Variable Body : Type.

(** [eph[key]] for DE421: [None] is [KeyError]. *)
Variable eph : BodyKey -> option Body.

(** [earth = eph['earth']], line 37. *)
Variable earth : Body.

(** [times = ts.utc(2024, 1, range(1, 367))] *)
Variable times2024 : list Q.

(** [observer.at(times).observe(earth).ecliptic_latlon()], the degrees of
    the longitude; [None] is an exception. *)
Variable observe_longitudes : Body -> Body -> list Q -> option (list Q).



End Main.
End GenerateTestDataMain.

(** ** test_mercury_retrograde.py, [test_earth_retrograde_from_mercury],
       lines 46-138 *)

Module TestMercuryRetrograde.
(** The dates are [datetime]s at midnight ([strptime] with ['%d-%b-%Y'],
    then whole days added): a date is its day number, [(a - b).days] the
    difference of two. *)

(** [{'start': ..., 'end': ...}], a row of the CSV or a period found. *)
Record DatePeriod : Type := mkDates { start : Z; end_ : Z }.

(** The variables of the loop of lines 84-94. *)
Record RetroState : Type := mkRetro {
  in_retro : bool;
  retro_start : option Z;
  earth_retro_periods : list DatePeriod
}.

(** The body of [for i, is_retro in enumerate(retrograde)]: the start is
    read from [dates] when the run opens, the end when it closes; [None] is
    [IndexError].  A [datetime] is true, so [if retro_start:] asks whether it
    was set. *)
Definition retro_body (dates : list Z) (i : nat) (is_retro : bool)
    (st : RetroState) : option RetroState :=
  if is_retro && negb (in_retro st) then
    match nth_error dates i with
    | Some d => Some (mkRetro true (Some d) (earth_retro_periods st))
    | None => None
    end
  else if negb is_retro && in_retro st then
    match retro_start st with
    | Some s =>
        match nth_error dates i with
        | Some d =>
            Some (mkRetro false (retro_start st)
                    (earth_retro_periods st ++ [mkDates s d]))
        | None => None
        end
    | None => Some (mkRetro false None (earth_retro_periods st))
    end
  else Some st.

Fixpoint retro_from (dates : list Z) (i : nat) (retrograde : list bool)
    (st : RetroState) : option RetroState :=
  match retrograde with
  | [] => Some st
  | is_retro :: rest =>
      match retro_body dates i is_retro st with
      | Some st' => retro_from dates (S i) rest st'
      | None => None
      end
  end.

(** Lines 72-94: [earth_retro_periods] after the loop. *)
Definition find_earth_retro_periods (dates : list Z) (longitudes0 : list Q)
    : option (list DatePeriod) :=
  option_map earth_retro_periods
    (retro_from dates 0 (is_retrograde longitudes0) (mkRetro false None [])).

(** A period of dates as a period of the calculators. *)
Definition as_period (p : DatePeriod) : Period :=
  mkPeriod (inject_Z (start p)) (inject_Z (end_ p)).

(** The variables of the loop of lines 101-113. *)
Record MatchState : Type := mkMatch {
  exact_match : bool;
  close_match : bool;
  best_match : option DatePeriod
}.

(** The test of lines 103-104. *)
Definition same_dates (start_date end_date : Z) (p : DatePeriod) : bool :=
  ((start p =? start_date) && (end_ p =? end_date))%Z.

(** The test of lines 110-111. *)
Definition within_two_days (start_date end_date : Z) (p : DatePeriod)
    : bool :=
  ((Z.abs (start p - start_date) <=? 2)
   && (Z.abs (end_ p - end_date) <=? 2))%Z.

(** [for earth_period in earth_retro_periods], with its [break]. *)
Fixpoint match_periods (start_date end_date : Z)
    (earth_retro_periods0 : list DatePeriod) (st : MatchState)
    : MatchState :=
  match earth_retro_periods0 with
  | [] => st
  | earth_period :: rest =>
      if same_dates start_date end_date earth_period then
        mkMatch true (close_match st) (Some earth_period)
      else if within_two_days start_date end_date earth_period then
        match_periods start_date end_date rest
          (mkMatch (exact_match st) true (Some earth_period))
      else match_periods start_date end_date rest st
  end.

(** Lines 96-113: the three variables set, then the loop. *)
Definition find_match (start_date end_date : Z)
    (earth_retro_periods0 : list DatePeriod) : MatchState :=
  match_periods start_date end_date earth_retro_periods0
    (mkMatch false false None).

(** Lines 115-125 on the counters [(matches, mismatches)]; [None] is the
    [TypeError] of [best_match['start']] on [None]. *)
Definition count_period (m : MatchState) (counters : Z * Z)
    : option (Z * Z) :=
  let (matches, mismatches) := counters in
  if exact_match m then Some ((matches + 1)%Z, mismatches)
  else if close_match m then
    match best_match m with
    | Some _ => Some (matches, (mismatches + 1)%Z)
    | None => None
    end
  else Some (matches, (mismatches + 1)%Z).

(** What the run prints at the end: the two counters and the rate, [None]
    for the rate being the [ZeroDivisionError] of line 138. *)
Record Report : Type := mkReport {
  matches : Z;
  mismatches : Z;
  rate : option Q
}.

Section Test.
(** [mercury.at(times).observe(earth).ecliptic_latlon()] for the dates
    given, the degrees of the longitude; [None] is an exception. *)
Variable observe : list Z -> option (list Q).

(** Lines 57-62: the dates from five days before the period to five days
    after it. *)
Definition check_dates (start_date end_date : Z) : list Z :=
  let check_start := (start_date - 5)%Z in
  let check_end := (end_date + 5)%Z in
  let num_days := (check_end - check_start + 1)%Z in
  map (fun i => (check_start + i)%Z) (py_range 0 num_days 1).

(** Lines 51-113 for one row. *)
Definition test_period (period : DatePeriod) : option MatchState :=
  let dates := check_dates (start period) (end_ period) in
  match observe dates with
  | None => None
  | Some longitudes0 =>
      match find_earth_retro_periods dates longitudes0 with
      | None => None
      | Some found =>
          Some (find_match (start period) (end_ period) found)
      end
  end.

(** [for period in mercury_retrogrades[:10]] *)
Fixpoint test_loop (rows : list DatePeriod) (counters : Z * Z)
    : option (Z * Z) :=
  match rows with
  | [] => Some counters
  | period :: rest =>
      match test_period period with
      | None => None
      | Some m =>
          match count_period m counters with
          | None => None
          | Some counters' => test_loop rest counters'
          end
      end
  end.

(** The row is found with its own two dates. *)
Definition found_exactly (period : DatePeriod) : bool :=
  match test_period period with
  | Some m => exact_match m
  | None => false
  end.

Definition test_earth_retrograde_from_mercury
    (mercury_retrogrades : list DatePeriod) : option Report :=
  match test_loop (firstn 10 mercury_retrogrades) (0%Z, 0%Z) with
  | None => None
  | Some (matches0, mismatches0) =>
      Some (mkReport matches0 mismatches0
              (option_map (fun r => r * 100)
                 (py_truediv matches0 (matches0 + mismatches0))))
  end.
End Test.
End TestMercuryRetrograde.

(** ** The asteroid files (retrograde_calculator_1950_2050.py, lines 47-67;
       find_chiron_ephemeris.py, lines 48-79) *)

Module AsteroidFiles.
(** [asteroid_files_to_try] of [EarthRetrogradeFinder.__init__] *)
Definition asteroid_files_to_try : list string :=
  [ "sb441-n16.bsp"; "sb441.bsp"; "asteroids.bsp" ]%string.

(** [asteroid_files] of [try_asteroid_ephemeris_files] *)
Definition asteroid_files : list string :=
  [ "sb441-n16.bsp"; "sb441.bsp"; "asteroids.bsp"; "sb432s.bsp" ]%string.

Section Load.
(** A loaded kernel. *)
Variable Kernel : Type.

(** [load(ast_file)]: [None] is an exception. *)
Variable load : string -> option Kernel.

(** [eph[2060]] returns. *)
Variable has_chiron : Kernel -> bool.

(** Lines 54-67 of [__init__]: the first file that loads is kept. *)
Fixpoint load_first (files : list string) : option Kernel :=
  match files with
  | [] => None
  | ast_file :: rest =>
      match load ast_file with
      | Some kernel => Some kernel
      | None => load_first rest
      end
  end.

(** [self.asteroid_eph] *)
Definition asteroid_eph : option Kernel := load_first asteroid_files_to_try.

(** Lines 62-79 of find_chiron_ephemeris.py: the first file that loads and
    holds 2060 is returned. *)
Fixpoint try_files (files : list string) : option string :=
  match files with
  | [] => None
  | ast_file :: rest =>
      match load ast_file with
      | Some eph =>
          if has_chiron eph then Some ast_file else try_files rest
      | None => try_files rest
      end
  end.

Definition try_asteroid_ephemeris_files : option string :=
  try_files asteroid_files.

(** The file loads and holds Chiron. *)
Definition holds_chiron (ast_file : string) : bool :=
  match load ast_file with
  | Some eph => has_chiron eph
  | None => false
  end.
End Load.
End AsteroidFiles.

(** The loop of test_mercury_retrograde.py and the loop of the calculators
    at the same index, over the same flags. *)
Definition same_scan (dates : list Z) (st : TestMercuryRetrograde.RetroState)
    (st' : ScanState) : Prop :=
  TestMercuryRetrograde.in_retro st = in_retrograde st' /\
  map TestMercuryRetrograde.as_period
      (TestMercuryRetrograde.earth_retro_periods st) = periods st' /\
  (TestMercuryRetrograde.in_retro st = true ->
   exists s d,
     start_idx st' = Some s /\
     TestMercuryRetrograde.retro_start st = Some d /\
     nth_error dates s = Some d).

(** Closed goals on sorted arrays of literals. *)
Ltac solve_sorted :=
  repeat match goal with
         | |- StronglySorted _ _ => constructor
         | |- Forall _ _ => constructor
         | |- Qle _ _ => unfold Qle; simpl; lia
         | |- Qlt _ _ => unfold Qlt; simpl; lia
         end.

(** A run of the loop on literal arrays, turn by turn. *)
Ltac run_loop :=
  repeat (eapply leaves_turn;
          [ first [ eapply turn_start; reflexivity
                  | eapply turn_end; reflexivity
                  | eapply turn_end_unset; reflexivity
                  | eapply turn_idle; reflexivity ] | ]);
  apply leaves_done; reflexivity.

(** * Lemmas *)

(** ** Comparisons *)

Lemma Qltb_lt (x y : Q) : Qltb x y = true <-> x < y.
Proof.
  unfold Qltb. rewrite negb_true_iff. split; intro H.
  - apply Qnot_le_lt. intro Hle. apply Qle_bool_iff in Hle. congruence.
  - destruct (Qle_bool y x) eqn:E; [|reflexivity].
    apply Qle_bool_iff in E. exfalso. apply (Qlt_not_le _ _ H E).
Qed.

Lemma Qltb_ge (x y : Q) : Qltb x y = false <-> y <= x.
Proof.
  unfold Qltb. rewrite negb_false_iff. apply Qle_bool_iff.
Qed.

(** ** [np.diff] and the classification *)

Lemma np_diff_length (a : list Q) : length (np_diff a) = pred (length a).
Proof.
  induction a as [|x [|y tl] IH]; simpl in *; try reflexivity.
  now rewrite IH.
Qed.

Lemma is_retrograde_length (a : list Q) :
  length (is_retrograde a) = pred (length a).
Proof.
  unfold is_retrograde, wraparound. rewrite !length_map. apply np_diff_length.
Qed.

Lemma np_diff_nth (a : list Q) (i : nat) (x y : Q) :
  nth_error a i = Some x -> nth_error a (S i) = Some y ->
  nth_error (np_diff a) i = Some (y - x).
Proof.
  revert i. induction a as [|x0 [|y0 tl] IH]; intros i Hx Hy.
  - destruct i; discriminate.
  - destruct i; simpl in Hy; [discriminate|destruct i; discriminate].
  - destruct i as [|i].
    + simpl in *. congruence.
    + change (nth_error (np_diff (y0 :: tl)) i = Some (y - x)).
      apply IH; assumption.
Qed.

(** The two array updates in sequence are the normalization of the
    specification: after [d - 360] for [d > 180] the second test cannot
    fire. *)
Lemma wrap_normalized (d : Q) : wrap_below (wrap_above d) = normalized_delta d.
Proof.
  unfold wrap_below, wrap_above, normalized_delta.
  destruct (Qltb 180 d) eqn:Hhi; [|reflexivity].
  apply Qltb_lt in Hhi.
  destruct (Qltb (d - 360) (-180)) eqn:Hlo; [|reflexivity].
  apply Qltb_lt in Hlo. lra.
Qed.

Lemma is_retrograde_nth (a : list Q) (i : nat) (x y : Q) :
  nth_error a i = Some x -> nth_error a (S i) = Some y ->
  nth_error (is_retrograde a) i = Some (Qltb (normalized_delta (y - x)) 0).
Proof.
  intros Hx Hy. unfold is_retrograde, wraparound.
  rewrite !nth_error_map, (np_diff_nth a i x y Hx Hy). simpl.
  now rewrite wrap_normalized.
Qed.

Lemma is_retrograde_short (a : list Q) :
  (length a < 2)%nat -> is_retrograde a = [].
Proof.
  intro H. apply length_zero_iff_nil. rewrite is_retrograde_length. lia.
Qed.

(** ** The scan, turn by turn *)

Lemma loop_body_grows times0 i r st :
  exists more, periods_after (loop_body times0 i r st) = periods st ++ more.
Proof.
  unfold loop_body.
  destruct (r && negb (in_retrograde st)); [exists []; simpl; now rewrite app_nil_r|].
  destruct (negb r && in_retrograde st); [|exists []; simpl; now rewrite app_nil_r].
  destruct (start_idx st) as [s|]; [|exists []; simpl; now rewrite app_nil_r].
  destruct (nth_error times0 s) as [a|], (nth_error times0 i) as [b|]; simpl;
    try (exists []; now rewrite app_nil_r).
  now exists [mkPeriod a b].
Qed.

Lemma scan_from_grows times0 rest : forall i st,
  exists more, periods_after (scan_from times0 i rest st) = periods st ++ more.
Proof.
  induction rest as [|r rest IH]; intros i st; simpl.
  - exists []. now rewrite app_nil_r.
  - destruct (loop_body_grows times0 i r st) as [m1 H1].
    destruct (loop_body times0 i r st) as [st'|ps]; simpl in *.
    + destruct (IH (S i) st') as [m2 H2]. exists (m1 ++ m2).
      now rewrite H2, H1, app_assoc.
    + now exists m1.
Qed.

Lemma scan_from_app times0 l1 l2 : forall i st,
  scan_from times0 i (l1 ++ l2) st =
  match scan_from times0 i l1 st with
  | Done st' => scan_from times0 (i + length l1) l2 st'
  | Raised ps => Raised ps
  end.
Proof.
  induction l1 as [|r l1 IH]; intros i st; simpl.
  - now rewrite Nat.add_0_r.
  - destruct (loop_body times0 i r st) as [st'|ps]; [|reflexivity].
    rewrite IH. now rewrite Nat.add_succ_r.
Qed.

(** After a turn the flag [in_retrograde] is the classification just read. *)
Lemma loop_body_flag times0 i r st st' :
  loop_body times0 i r st = Done st' -> in_retrograde st' = r.
Proof.
  unfold loop_body. destruct r, (in_retrograde st) eqn:E; simpl; intro H.
  - inversion H; subst; assumption.
  - inversion H; reflexivity.
  - destruct (start_idx st) as [s|]; [|inversion H; reflexivity].
    destruct (nth_error times0 s), (nth_error times0 i); inversion H; reflexivity.
  - inversion H; subst; assumption.
Qed.

Lemma loop_body_push ps0 times0 i r st :
  loop_body times0 i r (push ps0 st) = push_outcome ps0 (loop_body times0 i r st).
Proof.
  unfold loop_body, push; simpl.
  destruct (r && negb (in_retrograde st)); [reflexivity|].
  destruct (negb r && in_retrograde st); [|now destruct st].
  destruct (start_idx st) as [s|]; [|reflexivity].
  destruct (nth_error times0 s), (nth_error times0 i); simpl; try reflexivity.
  unfold push; simpl. now rewrite app_assoc.
Qed.

Lemma scan_from_push ps0 times0 rest : forall i st,
  scan_from times0 i rest (push ps0 st) =
  push_outcome ps0 (scan_from times0 i rest st).
Proof.
  induction rest as [|r rest IH]; intros i st; simpl; [reflexivity|].
  rewrite loop_body_push.
  destruct (loop_body times0 i r st) as [st'|ps]; simpl; [apply IH|reflexivity].
Qed.

(** The periods of a chunk are appended to those of the chunks before it. *)
Lemma scan_chunk_app (c : Chunk) (ps0 : list Period) :
  scan_chunk c ps0 = ps0 ++ scan_chunk c [].
Proof.
  unfold scan_chunk, scan.
  replace (mkScan false None ps0) with (push ps0 (mkScan false None []))
    by (unfold push; simpl; now rewrite app_nil_r).
  rewrite scan_from_push.
  now destruct (scan_from (times c) 0 (is_retrograde (longitudes c))
                  (mkScan false None [])).
Qed.

(** No index is out of range while the loop stays inside [times]. *)
Lemma scan_from_total times0 rest : forall i st,
  start_in_range times0 st ->
  (i + length rest <= length times0)%nat ->
  exists st', scan_from times0 i rest st = Done st' /\
              start_in_range times0 st'.
Proof.
  induction rest as [|r rest IH]; intros i st Hs Hlen; simpl in *.
  - now exists st.
  - assert (Hi : (i < length times0)%nat) by lia.
    assert (Hstep : exists st', loop_body times0 i r st = Done st' /\
                                start_in_range times0 st').
    { unfold loop_body.
      destruct (r && negb (in_retrograde st)).
      - eexists; split; [reflexivity|]. intros s E; simpl in E.
        inversion E; subst; assumption.
      - destruct (negb r && in_retrograde st); [|now exists st].
        destruct (start_idx st) as [s|] eqn:Es.
        + destruct (nth_error times0 s) as [a|] eqn:Ea.
          * destruct (nth_error times0 i) as [b|] eqn:Eb.
            -- eexists; split; [reflexivity|]. intros s' E; simpl in E.
               apply Hs. congruence.
            -- apply nth_error_None in Eb. lia.
          * apply nth_error_None in Ea. specialize (Hs s Es). lia.
        + eexists; split; [reflexivity|]. intros s' E; discriminate. }
    destruct Hstep as [st' [E Hs']]. rewrite E. apply IH; [assumption|lia].
Qed.

(** ** Sorted arrays *)

Lemma sorted_nth {A : Type} (R : A -> A -> Prop) (l : list A) :
  StronglySorted R l ->
  forall i j x y, (i < j)%nat ->
    nth_error l i = Some x -> nth_error l j = Some y -> R x y.
Proof.
  induction 1 as [|a l Hs IH Hall]; intros i j x y Hij Hx Hy.
  - destruct i; discriminate.
  - destruct j as [|j]; [lia|]. destruct i as [|i]; simpl in *.
    + inversion Hx; subst. apply nth_error_In in Hy.
      rewrite Forall_forall in Hall. now apply Hall.
    + apply (IH i j); [lia|assumption|assumption].
Qed.

Lemma sorted_app {A : Type} (R : A -> A -> Prop) (l1 l2 : list A) :
  StronglySorted R l1 -> StronglySorted R l2 ->
  (forall x y, In x l1 -> In y l2 -> R x y) ->
  StronglySorted R (l1 ++ l2).
Proof.
  induction 1 as [|a l1 Hs IH Hall]; intros H2 Hcross; simpl; [assumption|].
  constructor.
  - apply IH; [assumption|]. intros x y Hx Hy. apply Hcross; [now right|assumption].
  - apply Forall_app; split; [assumption|].
    apply Forall_forall. intros y Hy. apply Hcross; [now left|assumption].
Qed.


(** ** The invariant of the loop *)

Section RunFacts.
Variable times0 : list Q.
Variable retrograde : list bool.

Lemma scan_inv_init : scan_inv times0 retrograde (0%nat, mkScan false None []).
Proof.
  exists 0%nat. simpl. split; [constructor|]. split; [lia|now left].
Qed.

Lemma loop_body_inv i r st :
  nth_error retrograde i = Some r ->
  scan_inv times0 retrograde (i, st) ->
  match loop_body times0 i r st with
  | Done st' => scan_inv times0 retrograde (S i, st')
  | Raised ps => ps = periods st
  end.
Proof.
  intros Hr [n [Hch Hst]]. simpl in Hch, Hst. unfold loop_body.
  destruct r, (in_retrograde st) eqn:E; simpl.
  - (* the run goes on *)
    exists n. simpl. rewrite E. split; [assumption|].
    destruct Hst as [s [Hs [Hn [Hlt [Htrue Hpre]]]]].
    exists s. repeat split; try assumption; [lia|].
    intros k Hk. destruct (Nat.eq_dec k i) as [->|Hne]; [assumption|].
    apply Htrue. lia.
  - (* a run starts at [i] *)
    exists n. simpl. split; [assumption|].
    destruct Hst as [Hn Hpre].
    exists i. repeat split; try assumption; [lia|].
    intros k Hk. assert (k = i) by lia. now subst.
  - (* the run is closed at [i] *)
    destruct Hst as [s [Hs [Hn [Hlt [Htrue Hpre]]]]]. rewrite Hs.
    destruct (nth_error times0 s) as [a|] eqn:Ea; [|reflexivity].
    destruct (nth_error times0 i) as [b|] eqn:Eb; [|reflexivity].
    exists (S i). simpl. split.
    + apply chain_snoc with (n := n) (a := s); [assumption|assumption|].
      repeat split; assumption.
    + split; [lia|now right].
  - (* nothing open, nothing starts *)
    exists n. simpl. rewrite E. split; [assumption|].
    destruct Hst as [Hn _]. split; [lia|now right].
Qed.

Lemma scan_from_inv rest : forall i st,
  (forall k, nth_error rest k = nth_error retrograde (i + k)) ->
  scan_inv times0 retrograde (i, st) ->
  match scan_from times0 i rest st with
  | Done st' => scan_inv times0 retrograde ((i + length rest)%nat, st')
  | Raised ps => exists n, chain times0 retrograde ps n
  end.
Proof.
  induction rest as [|r rest IH]; intros i st Hsuf Hinv; simpl.
  - now rewrite Nat.add_0_r.
  - assert (Hr : nth_error retrograde i = Some r).
    { specialize (Hsuf 0%nat). rewrite Nat.add_0_r in Hsuf. now symmetry. }
    pose proof (loop_body_inv i r st Hr Hinv) as Hstep.
    destruct (loop_body times0 i r st) as [st'|ps].
    + rewrite Nat.add_succ_r. apply (IH (S i) st'); [|assumption].
      intro k. specialize (Hsuf (S k)). simpl in Hsuf.
      now rewrite Hsuf, Nat.add_succ_r.
    + subst ps. destruct Hinv as [n [Hch _]]. now exists n.
Qed.

(** The loop over all the flags, from the initial state. *)
Lemma scan_inv_final :
  match scan times0 retrograde [] with
  | Done st => scan_inv times0 retrograde (length retrograde, st)
  | Raised ps => exists n, chain times0 retrograde ps n
  end.
Proof.
  apply (scan_from_inv retrograde 0%nat); [reflexivity|apply scan_inv_init].
Qed.

Lemma scan_chain :
  exists n, chain times0 retrograde
              (periods_after (scan times0 retrograde [])) n.
Proof.
  pose proof scan_inv_final as H.
  destruct (scan times0 retrograde []) as [st|ps]; simpl; [|assumption].
  destruct H as [n [Hch _]]. now exists n.
Qed.

Lemma chain_bound ps n :
  chain times0 retrograde ps n ->
  Forall (fun p => exists a b,
            period_run times0 retrograde p a b /\ (b < n)%nat) ps.
Proof.
  induction 1 as [|ps n p a b Hch IH Hna Hrun]; [constructor|].
  assert (Hab : (a < b)%nat) by apply Hrun.
  apply Forall_app; split.
  - eapply Forall_impl; [|exact IH].
    intros p0 (a0 & b0 & Hrun0 & Hlt). exists a0, b0. split; [assumption|lia].
  - constructor; [|constructor]. exists a, b. split; [assumption|lia].
Qed.

Lemma period_run_lt p a b :
  strictly_increasing times0 -> period_run times0 retrograde p a b ->
  start_jd p < end_jd p.
Proof.
  intros Hs [[Hab _] [Ha Hb]]. exact (sorted_nth Qlt times0 Hs a b _ _ Hab Ha Hb).
Qed.

Lemma chain_disjoint ps n :
  strictly_increasing times0 -> chain times0 retrograde ps n ->
  disjoint_in_order ps.
Proof.
  intros Hs. induction 1 as [|ps n p a b Hch IH Hna Hrun]; intros k p1 q1 Hp Hq.
  - destruct k; discriminate.
  - destruct (Nat.lt_ge_cases (S k) (length ps)) as [Hlt|Hge].
    + rewrite nth_error_app1 in Hp, Hq by lia. exact (IH k p1 q1 Hp Hq).
    + rewrite nth_error_app2 in Hq by lia.
      destruct (S k - length ps)%nat as [|m] eqn:Em;
        [|destruct m; discriminate].
      simpl in Hq. inversion Hq; subst q1.
      rewrite nth_error_app1 in Hp by lia.
      apply nth_error_In in Hp.
      pose proof (chain_bound ps n Hch) as Hall.
      rewrite Forall_forall in Hall.
      destruct (Hall p1 Hp) as (a0 & b0 & [_ [_ Hb0]] & Hlt).
      destruct Hrun as [[Hab _] [Ha _]].
      destruct (Nat.eq_dec b0 a) as [->|Hne].
      * lia.
      * apply (sorted_nth Qlt times0 Hs b0 a); [lia|assumption|assumption].
Qed.

End RunFacts.

(** ** generate_test_data.py runs the same loop *)

Lemma gen_loop_body_eq times0 i r st :
  (in_retrograde st = true -> start_idx st <> None) ->
  GenerateTestData.loop_body times0 i r st = loop_body times0 i r st.
Proof.
  intro H. unfold GenerateTestData.loop_body, loop_body.
  destruct (r && negb (in_retrograde st)); [reflexivity|].
  destruct (start_idx st) as [s|]; [reflexivity|].
  destruct (in_retrograde st); [now exfalso; apply H|].
  now rewrite andb_false_r.
Qed.

Lemma loop_body_start times0 i r st st' :
  (in_retrograde st = true -> start_idx st <> None) ->
  loop_body times0 i r st = Done st' ->
  in_retrograde st' = true -> start_idx st' <> None.
Proof.
  intros H E. unfold loop_body in E.
  destruct r, (in_retrograde st) eqn:E0; simpl in E.
  - inversion E; subst. intros _. now apply H.
  - inversion E; subst. discriminate.
  - destruct (start_idx st) as [s|]; [|inversion E; discriminate].
    destruct (nth_error times0 s), (nth_error times0 i); inversion E; discriminate.
  - inversion E; subst. congruence.
Qed.

Lemma gen_scan_from_eq times0 rest : forall i st,
  (in_retrograde st = true -> start_idx st <> None) ->
  GenerateTestData.scan_from times0 i rest st = scan_from times0 i rest st.
Proof.
  induction rest as [|r rest IH]; intros i st H; simpl; [reflexivity|].
  rewrite gen_loop_body_eq by assumption.
  destruct (loop_body times0 i r st) as [st'|ps] eqn:E; [|reflexivity].
  apply IH. exact (loop_body_start times0 i r st st' H E).
Qed.

Lemma gen_extract_periods_eq times0 longitudes0 :
  GenerateTestData.extract_periods times0 longitudes0 =
  match scan times0 (is_retrograde longitudes0) [] with
  | Done st => GenerateTestData.close_open_run times0 st
  | Raised _ => None
  end.
Proof.
  unfold GenerateTestData.extract_periods, scan.
  rewrite gen_scan_from_eq; [reflexivity|discriminate].
Qed.

(** * The claims *)

(** C3.  A pair of consecutive samples [a], [b] is classified retrograde
    exactly when the circularly normalized difference [b - a] (minus 360
    above 180, plus 360 below -180) is strictly negative; a difference of 0
    is not retrograde; the samples 350, 355, 2, 8 have the normalized
    differences 5, 7, 6 and no retrograde pair. *)
Theorem is_retrograde_normalized_delta :
  (forall (ecliptic_longitudes : list Q) (i : nat) (a b : Q),
      nth_error ecliptic_longitudes i = Some a ->
      nth_error ecliptic_longitudes (S i) = Some b ->
      exists flag,
        nth_error (is_retrograde ecliptic_longitudes) i = Some flag /\
        (flag = true <-> normalized_delta (b - a) < 0)) /\
  (forall (ecliptic_longitudes : list Q) (i : nat) (a b : Q),
      nth_error ecliptic_longitudes i = Some a ->
      nth_error ecliptic_longitudes (S i) = Some b ->
      b - a == 0 ->
      nth_error (is_retrograde ecliptic_longitudes) i = Some false) /\
  map normalized_delta (np_diff [350; 355; 2; 8]) = [5; 7; 6] /\
  wraparound (np_diff [350; 355; 2; 8]) = [5; 7; 6] /\
  is_retrograde [350; 355; 2; 8] = [false; false; false].
Proof.
  split; [|split; [|repeat split; reflexivity]].
  - intros longs i a b Ha Hb.
    exists (Qltb (normalized_delta (b - a)) 0). split.
    + now apply is_retrograde_nth.
    + apply Qltb_lt.
  - intros longs i a b Ha Hb Hz.
    rewrite (is_retrograde_nth longs i a b Ha Hb). f_equal.
    apply Qltb_ge. unfold normalized_delta.
    destruct (Qltb 180 (b - a)) eqn:Hhi.
    + apply Qltb_lt in Hhi. lra.
    + destruct (Qltb (b - a) (-180)) eqn:Hlo.
      * apply Qltb_lt in Hlo. lra.
      * lra.
Qed.

Lemma is_retrograde_normalized_delta_witness :
  (exists flag,
      nth_error (is_retrograde [10; 8; 8]) 0 = Some flag /\
      (flag = true <-> normalized_delta (8 - 10) < 0)) /\
  nth_error (is_retrograde [10; 8; 8]) 1 = Some false.
Proof.
  split.
  - exact (proj1 is_retrograde_normalized_delta [10; 8; 8] 0%nat 10 8
             eq_refl eq_refl).
  - apply (proj1 (proj2 is_retrograde_normalized_delta) [10; 8; 8] 1%nat 8 8);
      reflexivity.
Defined.

(** C8.  A series of fewer than two samples yields no interval: the scan of
    a chunk appends nothing, and the one-pass extraction of
    generate_test_data.py returns the empty list. *)
Theorem short_series_no_periods (times0 longitudes0 : list Q) :
  (length longitudes0 < 2)%nat ->
  is_retrograde longitudes0 = [] /\
  scan_chunk (mkChunk times0 longitudes0) [] = [] /\
  GenerateTestData.extract_periods times0 longitudes0 = Some [].
Proof.
  intro H. pose proof (is_retrograde_short longitudes0 H) as E.
  unfold scan_chunk, GenerateTestData.extract_periods; simpl.
  rewrite E. repeat split.
Qed.

Lemma short_series_no_periods_witness :
  is_retrograde [123] = [] /\
  scan_chunk (mkChunk [2460311] [123]) [] = [] /\
  GenerateTestData.extract_periods [2460311] [123] = Some [].
Proof.
  apply (short_series_no_periods [2460311] [123]). simpl. lia.
Defined.

(** ** Scanning a prefix of the flags *)

Lemma firstn_snoc {A : Type} (l : list A) (n : nat) (x : A) :
  nth_error l n = Some x -> firstn (S n) l = firstn n l ++ [x].
Proof.
  revert n. induction l as [|y l IH]; intros n H.
  - destruct n; discriminate.
  - destruct n as [|n]; simpl in *.
    + now inversion H.
    + f_equal. now apply IH.
Qed.

Lemma firstn_length_index {A : Type} (l : list A) (n : nat) (x : A) :
  nth_error l n = Some x -> length (firstn n l) = n.
Proof.
  intro H. apply firstn_length_le.
  assert (n < length l)%nat by (apply nth_error_Some; congruence). lia.
Qed.

Lemma scan_snoc times0 l r ps0 :
  scan times0 (l ++ [r]) ps0 =
  match scan times0 l ps0 with
  | Done st => loop_body times0 (length l) r st
  | Raised ps => Raised ps
  end.
Proof.
  unfold scan. rewrite scan_from_app.
  destruct (scan_from times0 0 l (mkScan false None ps0)); [|reflexivity].
  simpl. now destruct (loop_body times0 (length l) r st).
Qed.

Lemma scan_prefix_total times0 retrograde (k : nat) :
  (k <= length times0)%nat ->
  exists st, scan times0 (firstn k retrograde) [] = Done st.
Proof.
  intro Hk.
  destruct (scan_from_total times0 (firstn k retrograde) 0%nat
              (mkScan false None [])) as [st [E _]].
  - intros s E; discriminate.
  - simpl. pose proof (firstn_le_length k retrograde). lia.
  - now exists st.
Qed.

(** While the flags stay retrograde the open run is left as it is. *)
Lemma scan_run_stays times0 retrograde i ps :
  scan times0 (firstn (S i) retrograde) [] = Done (mkScan true (Some i) ps) ->
  forall m,
    (forall k, (i <= k < i + S m)%nat -> nth_error retrograde k = Some true) ->
    scan times0 (firstn (i + S m) retrograde) [] =
    Done (mkScan true (Some i) ps).
Proof.
  intros H0 m. induction m as [|m IH]; intro Htrue.
  - now rewrite Nat.add_1_r.
  - replace (i + S (S m))%nat with (S (i + S m)) by lia.
    rewrite (firstn_snoc retrograde (i + S m) true) by (apply Htrue; lia).
    rewrite scan_snoc, IH by (intros k Hk; apply Htrue; lia).
    reflexivity.
Qed.

(** C4.  At a false-to-true transition at delta index [i] the scan records
    [start_idx = i]; at the following true-to-false transition at index [j]
    it appends exactly the interval from [times[i]] to [times[j]], which
    stays in the output.  For the longitudes 10, 12, 11, 9, 8, 10, 13 the
    output is the one interval from [times[1]] to [times[4]]. *)
Theorem scan_emits_run_at_transition :
  (forall (times0 : list Q) (retrograde : list bool) (i j : nat)
          (start_time end_time : Q),
      closed_run retrograde i j ->
      nth_error times0 i = Some start_time ->
      nth_error times0 j = Some end_time ->
      exists st more,
        scan times0 (firstn i retrograde) [] = Done st /\
        in_retrograde st = false /\
        scan times0 (firstn (S i) retrograde) [] =
          Done (mkScan true (Some i) (periods st)) /\
        scan times0 (firstn (S j) retrograde) [] =
          Done (mkScan false (Some i)
                  (periods st ++ [mkPeriod start_time end_time])) /\
        periods_after (scan times0 retrograde []) =
          periods st ++ mkPeriod start_time end_time :: more) /\
  (forall t0 t1 t2 t3 t4 t5 t6 : Q,
      is_retrograde [10; 12; 11; 9; 8; 10; 13] =
        [false; true; true; true; false; false] /\
      scan_chunk (mkChunk [t0; t1; t2; t3; t4; t5; t6]
                          [10; 12; 11; 9; 8; 10; 13]) [] =
        [mkPeriod t1 t4]).
Proof.
  split; [|intros; split; reflexivity].
  intros times0 retrograde i j start_time end_time
         (Hij & Htrue & Hfalse & Hpre) Hi Hj.
  assert (Hjt : (j < length times0)%nat) by (apply nth_error_Some; congruence).
  assert (Hir : nth_error retrograde i = Some true) by (apply Htrue; lia).
  destruct (scan_prefix_total times0 retrograde i) as [st Est]; [lia|].
  (* nothing is open before the transition *)
  assert (Hflag : in_retrograde st = false).
  { destruct i as [|i'].
    - simpl in Est. unfold scan in Est. simpl in Est. now inversion Est.
    - destruct Hpre as [Hpre|Hpre]; [discriminate|]. simpl in Hpre.
      rewrite (firstn_snoc retrograde i' false Hpre), scan_snoc in Est.
      destruct (scan times0 (firstn i' retrograde) []) as [st0|]; [|discriminate].
      exact (loop_body_flag _ _ _ _ _ Est). }
  (* the turn for index [i] opens the run *)
  assert (Eopen : scan times0 (firstn (S i) retrograde) [] =
                  Done (mkScan true (Some i) (periods st))).
  { rewrite (firstn_snoc retrograde i true Hir), scan_snoc, Est.
    rewrite (firstn_length_index retrograde i true Hir).
    unfold loop_body. now rewrite Hflag. }
  (* the turn for index [j] closes it *)
  assert (Eclose : scan times0 (firstn (S j) retrograde) [] =
                   Done (mkScan false (Some i)
                           (periods st ++ [mkPeriod start_time end_time]))).
  { rewrite (firstn_snoc retrograde j false Hfalse), scan_snoc.
    replace j with (i + S (j - i - 1))%nat at 1 by lia.
    rewrite (scan_run_stays times0 retrograde i (periods st) Eopen)
      by (intros k Hk; apply Htrue; lia).
    rewrite (firstn_length_index retrograde j false Hfalse).
    unfold loop_body. simpl. now rewrite Hi, Hj. }
  (* and the period stays in the list *)
  destruct (scan_from_grows times0 (skipn (S j) retrograde)
              (0 + length (firstn (S j) retrograde))
              (mkScan false (Some i)
                 (periods st ++ [mkPeriod start_time end_time])))
    as [more Hmore].
  exists st, more. repeat split; try assumption.
  rewrite <- (firstn_skipn (S j) retrograde) at 1.
  unfold scan in *. rewrite scan_from_app, Eclose, Hmore. simpl.
  now rewrite <- app_assoc.
Qed.

Lemma scan_emits_run_at_transition_witness :
  exists st more,
    scan [0; 1; 2; 3; 4; 5; 6]
      (firstn 1 [false; true; true; true; false; false]) [] = Done st /\
    in_retrograde st = false /\
    scan [0; 1; 2; 3; 4; 5; 6]
      (firstn 2 [false; true; true; true; false; false]) [] =
      Done (mkScan true (Some 1%nat) (periods st)) /\
    scan [0; 1; 2; 3; 4; 5; 6]
      (firstn 5 [false; true; true; true; false; false]) [] =
      Done (mkScan false (Some 1%nat) (periods st ++ [mkPeriod 1 4])) /\
    periods_after
      (scan [0; 1; 2; 3; 4; 5; 6] [false; true; true; true; false; false] []) =
      periods st ++ mkPeriod 1 4 :: more.
Proof.
  apply (proj1 scan_emits_run_at_transition
           [0; 1; 2; 3; 4; 5; 6] [false; true; true; true; false; false]
           1%nat 4%nat 1 4); [|reflexivity|reflexivity].
  split; [lia|]. split; [|split; [reflexivity|right; reflexivity]].
  intros k Hk.
  destruct k as [|[|[|[|k]]]]; try reflexivity; lia.
Defined.

(** ** What the output of one scan looks like *)

Lemma scan_chunk_chain (c : Chunk) :
  exists n, chain (times c) (is_retrograde (longitudes c)) (scan_chunk c []) n.
Proof. apply scan_chain. Qed.

Lemma scan_chunk_runs (c : Chunk) (p : Period) :
  In p (scan_chunk c []) ->
  exists a b, period_run (times c) (is_retrograde (longitudes c)) p a b.
Proof.
  intro Hp. destruct (scan_chunk_chain c) as [n Hch].
  pose proof (chain_bound _ _ _ _ Hch) as Hall.
  rewrite Forall_forall in Hall.
  destruct (Hall p Hp) as (a & b & Hrun & _). now exists a, b.
Qed.

Lemma chain_end_before times0 retrograde ps n p s x :
  strictly_increasing times0 -> chain times0 retrograde ps n ->
  In p ps -> (n <= s)%nat -> nth_error times0 s = Some x ->
  end_jd p < x.
Proof.
  intros Hs Hch Hp Hn Hx.
  pose proof (chain_bound _ _ _ _ Hch) as Hall.
  rewrite Forall_forall in Hall.
  destruct (Hall p Hp) as (a0 & b0 & [_ [_ Hb0]] & Hlt).
  apply (sorted_nth Qlt times0 Hs b0 s); [lia|assumption|assumption].
Qed.


Lemma disjoint_snoc (ps : list Period) (q : Period) :
  disjoint_in_order ps ->
  (forall p, In p ps -> end_jd p < start_jd q) ->
  disjoint_in_order (ps ++ [q]).
Proof.
  intros Hd Hq k p1 q1 Hp1 Hq1.
  destruct (Nat.lt_ge_cases (S k) (length ps)) as [Hlt|Hge].
  - rewrite nth_error_app1 in Hp1, Hq1 by lia. exact (Hd k p1 q1 Hp1 Hq1).
  - rewrite nth_error_app2 in Hq1 by lia.
    destruct (S k - length ps)%nat as [|m] eqn:Em; [|destruct m; discriminate].
    simpl in Hq1. inversion Hq1; subst q1.
    rewrite nth_error_app1 in Hp1 by lia.
    apply Hq. exact (nth_error_In _ _ Hp1).
Qed.

(** The one-pass extraction: the periods of the loop, and one more when a
    run is open after the last flag. *)
Lemma gen_extract_shape times0 longitudes0 ps :
  GenerateTestData.extract_periods times0 longitudes0 = Some ps ->
  exists st n,
    scan times0 (is_retrograde longitudes0) [] = Done st /\
    chain times0 (is_retrograde longitudes0) (periods st) n /\
    (ps = periods st \/
     exists s start_time end_time,
       (n <= s)%nat /\
       open_run (is_retrograde longitudes0) s
                (length (is_retrograde longitudes0)) /\
       nth_error times0 s = Some start_time /\
       GenerateTestData.last_time times0 = Some end_time /\
       ps = periods st ++ [mkPeriod start_time end_time]).
Proof.
  rewrite gen_extract_periods_eq. intro E.
  pose proof (scan_inv_final times0 (is_retrograde longitudes0)) as Hinv.
  destruct (scan times0 (is_retrograde longitudes0) []) as [st|]; [|discriminate].
  destruct Hinv as [n [Hch Hst]]. simpl in Hch, Hst.
  exists st, n. split; [reflexivity|]. split; [assumption|].
  unfold GenerateTestData.close_open_run in E.
  destruct (in_retrograde st); [|left; now inversion E].
  destruct Hst as [s [Hs [Hn Hopen]]]. rewrite Hs in E.
  destruct (nth_error times0 s) as [a|] eqn:Ea; [|discriminate].
  destruct (GenerateTestData.last_time times0) as [b|] eqn:Eb; [|discriminate].
  right. exists s, a, b. inversion E. repeat split; try assumption.
  all: apply Hopen.
Qed.

(** C6.  With strictly increasing timestamps every period the scan emits
    starts before it ends, and it ends at the timestamp of index [b], the
    first index after the run whose classification is not retrograde: later
    than the timestamp of the last retrograde index [b - 1]. *)
Theorem period_ends_at_first_prograde_index (c : Chunk) (p : Period) :
  strictly_increasing (times c) ->
  In p (scan_chunk c []) ->
  start_jd p < end_jd p /\
  exists a b,
    closed_run (is_retrograde (longitudes c)) a b /\
    nth_error (times c) a = Some (start_jd p) /\
    nth_error (times c) b = Some (end_jd p) /\
    (forall t, nth_error (times c) (pred b) = Some t -> t < end_jd p).
Proof.
  intros Hs Hp. destruct (scan_chunk_runs c p Hp) as (a & b & Hrun).
  split; [exact (period_run_lt _ _ p a b Hs Hrun)|].
  exists a, b. destruct Hrun as [Hcl [Ha Hb]]. repeat split; try apply Hcl; try assumption.
  intros t Ht. destruct Hcl as [Hab _].
  apply (sorted_nth Qlt (times c) Hs (pred b) b); [lia|assumption|assumption].
Qed.

Lemma period_ends_at_first_prograde_index_witness :
  1 < 4 /\
  exists a b,
    closed_run (is_retrograde [10; 12; 11; 9; 8; 10; 13]) a b /\
    nth_error [0; 1; 2; 3; 4; 5; 6] a = Some 1 /\
    nth_error [0; 1; 2; 3; 4; 5; 6] b = Some 4 /\
    (forall t, nth_error [0; 1; 2; 3; 4; 5; 6] (pred b) = Some t -> t < 4).
Proof.
  apply (period_ends_at_first_prograde_index
           (mkChunk [0; 1; 2; 3; 4; 5; 6] [10; 12; 11; 9; 8; 10; 13])
           (mkPeriod 1 4)).
  - unfold strictly_increasing; simpl. solve_sorted.
  - left. reflexivity.
Defined.

(** C10.  With strictly increasing timestamps the periods of a single pass
    are disjoint: each one ends strictly before the next one in the list
    starts.  This holds for the scan of retrograde_calculator.py and for
    the one-pass extraction of generate_test_data.py, whose last period may
    be the run closed at the last sample. *)
Theorem periods_disjoint_in_order :
  (forall c : Chunk,
      strictly_increasing (times c) ->
      disjoint_in_order (scan_chunk c [])) /\
  (forall (times0 longitudes0 : list Q) (ps : list Period),
      strictly_increasing times0 ->
      GenerateTestData.extract_periods times0 longitudes0 = Some ps ->
      disjoint_in_order ps).
Proof.
  split.
  - intros c Hs. destruct (scan_chunk_chain c) as [n Hch].
    exact (chain_disjoint _ _ _ _ Hs Hch).
  - intros times0 longitudes0 ps Hs E.
    destruct (gen_extract_shape _ _ _ E) as (st & n & _ & Hch & Hps).
    pose proof (chain_disjoint _ _ _ _ Hs Hch) as Hd.
    destruct Hps as [->|(s & a & b & Hn & _ & Ha & _ & ->)]; [assumption|].
    apply disjoint_snoc; [assumption|].
    intros p Hp. simpl. exact (chain_end_before _ _ _ _ p s a Hs Hch Hp Hn Ha).
Qed.

Lemma periods_disjoint_in_order_witness :
  disjoint_in_order
    (scan_chunk (mkChunk [0; 1; 2; 3; 4; 5; 6] [10; 9; 11; 10; 12; 11; 10]) []) /\
  disjoint_in_order [mkPeriod 0 1; mkPeriod 2 3; mkPeriod 4 6].
Proof.
  split.
  - apply (proj1 periods_disjoint_in_order
             (mkChunk [0; 1; 2; 3; 4; 5; 6] [10; 9; 11; 10; 12; 11; 10])).
    unfold strictly_increasing; simpl. solve_sorted.
  - apply (proj2 periods_disjoint_in_order
             [0; 1; 2; 3; 4; 5; 6] [10; 9; 11; 10; 12; 11; 10]).
    + unfold strictly_increasing. solve_sorted.
    + reflexivity.
Defined.

(** ** The loop over the chunks *)

Lemma fold_chunk_step END_YEAR chunk_years observe (l : list Z) :
  forall acc,
    fold_left (chunk_step END_YEAR chunk_years observe) l acc =
    acc ++ flat_map (fun c => scan_chunk c [])
             (flat_map (fun chunk_start =>
                          match observed END_YEAR chunk_years observe chunk_start with
                          | None => []
                          | Some c => [c]
                          end) l).
Proof.
  induction l as [|cs l IH]; intro acc; simpl.
  - now rewrite app_nil_r.
  - rewrite IH. unfold chunk_step.
    destruct (observed END_YEAR chunk_years observe cs) as [c|]; simpl.
    + now rewrite (scan_chunk_app c acc), <- app_assoc.
    + reflexivity.
Qed.

(** The output of the finder is the periods of its chunks, one chunk after
    the other, each scanned on its own. *)
Lemma find_retrograde_periods_chunks START_YEAR END_YEAR chunk_years observe :
  find_retrograde_periods START_YEAR END_YEAR chunk_years observe =
  flat_map (fun c => scan_chunk c [])
           (observed_chunks START_YEAR END_YEAR chunk_years observe).
Proof.
  unfold find_retrograde_periods, observed_chunks. now rewrite fold_chunk_step.
Qed.



(** The window of a chunk runs to December 31 of the year in which the next
    chunk starts on January 1: successive windows share that year. *)
Lemma consecutive_windows_overlap utc_tt END_YEAR chunk_years chunk_start :
  (forall year, utc_tt year 1%Z 1%Z < utc_tt year 12%Z 31%Z) ->
  (chunk_start + chunk_years <= END_YEAR)%Z ->
  start_date utc_tt (chunk_start + chunk_years)%Z <
  end_date utc_tt END_YEAR chunk_years chunk_start.
Proof.
  intros Hyear Hle. unfold start_date, end_date, chunk_end.
  rewrite Z.min_l by assumption. apply Hyear.
Qed.

(** Two chunks whose windows share samples: the runs inside the shared part
    are appended by both, and the accumulated list is no longer in start
    order. *)
Lemma overlapping_windows_repeat_periods :
  Calculator1950.find_earth_retrograde_periods
    (Examples.two_chunks 1950 1960
       Examples.overlapping_a Examples.overlapping_b) =
    [mkPeriod 2 3; mkPeriod 4 5; mkPeriod 2 3; mkPeriod 4 5] /\
  ~ StronglySorted Qle
      (map start_jd
         (Calculator1950.find_earth_retrograde_periods
            (Examples.two_chunks 1950 1960
               Examples.overlapping_a Examples.overlapping_b))).
Proof.
  assert (E : Calculator1950.find_earth_retrograde_periods
                (Examples.two_chunks 1950 1960
                   Examples.overlapping_a Examples.overlapping_b) =
              [mkPeriod 2 3; mkPeriod 4 5; mkPeriod 2 3; mkPeriod 4 5])
    by reflexivity.
  split; [exact E|]. rewrite E. simpl. intro H.
  inversion H as [|? ? Hs _]; subst.
  inversion Hs as [|? ? _ Hall]; subst.
  inversion Hall as [|? ? Hle _]; subst.
  unfold Qle in Hle; simpl in Hle. lia.
Qed.

(** Every period of the finder is a closed run of one of its chunks. *)
Lemma finder_periods_are_runs START_YEAR END_YEAR chunk_years observe p :
  In p (find_retrograde_periods START_YEAR END_YEAR chunk_years observe) ->
  exists c a b,
    In c (observed_chunks START_YEAR END_YEAR chunk_years observe) /\
    period_run (times c) (is_retrograde (longitudes c)) p a b.
Proof.
  rewrite find_retrograde_periods_chunks. intro Hp.
  apply in_flat_map in Hp. destruct Hp as [c [Hc Hp]].
  destruct (scan_chunk_runs c p Hp) as (a & b & Hrun).
  now exists c, a, b.
Qed.



(** ** A run open at the end of the series *)

Lemma open_run_unique retrograde s s' i :
  open_run retrograde s i -> open_run retrograde s' i -> s = s'.
Proof.
  intros (Hlt & Htrue & Hpre) (Hlt' & Htrue' & Hpre').
  destruct (Nat.lt_trichotomy s s') as [H|[H|H]]; [|assumption|]; exfalso.
  - destruct Hpre' as [->|Hf]; [lia|].
    rewrite (Htrue (pred s')) in Hf by lia. discriminate.
  - destruct Hpre as [->|Hf]; [lia|].
    rewrite (Htrue' (pred s)) in Hf by lia. discriminate.
Qed.

(** C2.  In the one-pass extraction (generate_test_data.py), a retrograde
    run that started at index [s] and is still open after the last flag is
    emitted as the last interval, from [times[s]] to the timestamp of the
    last sample; the longitudes 10, 8, 6 give the single interval from
    [times[0]] to [times[2]]. *)
Theorem open_run_closed_at_last_sample :
  (forall (times0 longitudes0 : list Q) (s : nat),
      length longitudes0 = length times0 ->
      open_run (is_retrograde longitudes0) s
               (length (is_retrograde longitudes0)) ->
      exists st start_time end_time,
        scan times0 (is_retrograde longitudes0) [] = Done st /\
        nth_error times0 s = Some start_time /\
        GenerateTestData.last_time times0 = Some end_time /\
        GenerateTestData.extract_periods times0 longitudes0 =
          Some (periods st ++ [mkPeriod start_time end_time])) /\
  (forall t0 t1 t2 : Q,
      GenerateTestData.extract_periods [t0; t1; t2] [10; 8; 6] =
        Some [mkPeriod t0 t2]).
Proof.
  split; [|reflexivity].
  intros times0 longitudes0 s Hlen Hopen.
  set (retro := is_retrograde longitudes0) in *.
  assert (Hrl : length retro = pred (length times0))
    by (unfold retro; now rewrite is_retrograde_length, Hlen).
  assert (Hs : (s < length retro)%nat) by apply Hopen.
  destruct (scan_from_total times0 retro 0%nat (mkScan false None []))
    as [st [Est _]]; [intros ? ?; discriminate|simpl; lia|].
  pose proof (scan_inv_final times0 retro) as Hinv.
  unfold scan in Hinv. rewrite Est in Hinv.
  destruct Hinv as [n [Hch Hst]]. simpl in Hch, Hst.
  rewrite gen_extract_periods_eq. fold retro. unfold scan. rewrite Est.
  unfold GenerateTestData.close_open_run.
  destruct (in_retrograde st).
  - destruct Hst as [s' [Hs' [Hn Hopen']]].
    rewrite (open_run_unique retro s s' _ Hopen Hopen') in *.
    rewrite Hs'.
    destruct (nth_error times0 s') as [a|] eqn:Ea;
      [|apply nth_error_None in Ea; lia].
    destruct (GenerateTestData.last_time times0) as [b|] eqn:Eb;
      [|apply nth_error_None in Eb; lia].
    now exists st, a, b.
  - exfalso. destruct Hst as [_ [H0|Hf]]; [lia|].
    destruct Hopen as (_ & Htrue & _).
    rewrite (Htrue (pred (length retro))) in Hf by lia. discriminate.
Qed.

Lemma open_run_closed_at_last_sample_witness :
  exists st start_time end_time,
    scan [0; 1; 2; 3] (is_retrograde [10; 12; 11; 9]) [] = Done st /\
    nth_error [0; 1; 2; 3] 1 = Some start_time /\
    GenerateTestData.last_time [0; 1; 2; 3] = Some end_time /\
    GenerateTestData.extract_periods [0; 1; 2; 3] [10; 12; 11; 9] =
      Some (periods st ++ [mkPeriod start_time end_time]).
Proof.
  apply (proj1 open_run_closed_at_last_sample
           [0; 1; 2; 3] [10; 12; 11; 9] 1%nat); [reflexivity|].
  split; [simpl; lia|]. split; [|right; reflexivity].
  intros k Hk. simpl in Hk.
  destruct k as [|[|[|k]]]; try reflexivity; lia.
Defined.

(** ** The loop as a transition system: determinism *)

Section Determinism.
Variable times0 : list Q.
Variable retrograde : list bool.

Lemma turn_deterministic c c1 c2 :
  turn times0 retrograde c c1 -> turn times0 retrograde c c2 -> c1 = c2.
Proof.
  intros H1 H2. inversion H1; subst; inversion H2; subst; congruence.
Qed.

Lemma turn_not_done i st c' :
  turn times0 retrograde (i, st) c' -> nth_error retrograde i <> None.
Proof. intro H. inversion H; subst; congruence. Qed.

Lemma turn_not_raise i st c' s :
  turn times0 retrograde (i, st) c' ->
  nth_error retrograde i = Some false ->
  in_retrograde st = true ->
  start_idx st = Some s ->
  nth_error times0 s = None \/ nth_error times0 i = None ->
  False.
Proof.
  intros H Hf Hin Hs Hnone.
  inversion H; subst; destruct Hnone; congruence.
Qed.

Lemma leaves_deterministic c ps1 ps2 :
  leaves times0 retrograde c ps1 -> leaves times0 retrograde c ps2 ->
  ps1 = ps2.
Proof.
  intro H1. revert ps2.
  induction H1 as [i st Hnone|i st s Hf Hin Hs Hor|c c' ps Hturn Hleaves IH];
    intros ps2 H2.
  - inversion H2; subst; [reflexivity|congruence|].
    exfalso. eapply turn_not_done; eassumption.
  - inversion H2; subst; [congruence|reflexivity|].
    exfalso. eapply turn_not_raise; eassumption.
  - inversion H2; subst.
    + exfalso. eapply turn_not_done; eassumption.
    + exfalso. eapply turn_not_raise; eassumption.
    + match goal with
      | Ht : turn _ _ c ?c2 |- _ =>
          rewrite <- (turn_deterministic c c' c2 Hturn Ht) in *
      end.
      now apply IH.
Qed.

(** The function [loop_body] takes the turns of the relation. *)
Lemma loop_body_turn i r st :
  nth_error retrograde i = Some r ->
  match loop_body times0 i r st with
  | Done st' => turn times0 retrograde (i, st) (S i, st')
  | Raised ps => leaves times0 retrograde (i, st) ps
  end.
Proof.
  intro Hr. unfold loop_body.
  destruct r, (in_retrograde st) eqn:E; simpl.
  - now apply turn_idle with (r := true).
  - now apply turn_start.
  - destruct (start_idx st) as [s|] eqn:Es.
    + destruct (nth_error times0 s) as [a|] eqn:Ea.
      * destruct (nth_error times0 i) as [b|] eqn:Eb.
        -- now apply turn_end.
        -- apply leaves_raise with (s := s); auto.
      * apply leaves_raise with (s := s); auto.
    + now apply turn_end_unset.
  - now apply turn_idle with (r := false).
Qed.

Lemma scan_from_leaves rest : forall i st,
  (forall k, nth_error rest k = nth_error retrograde (i + k)) ->
  leaves times0 retrograde (i, st)
         (periods_after (scan_from times0 i rest st)).
Proof.
  induction rest as [|r rest IH]; intros i st Hsuf; simpl.
  - apply leaves_done. specialize (Hsuf 0%nat).
    rewrite Nat.add_0_r in Hsuf. now symmetry.
  - assert (Hr : nth_error retrograde i = Some r).
    { specialize (Hsuf 0%nat). rewrite Nat.add_0_r in Hsuf. now symmetry. }
    pose proof (loop_body_turn i r st Hr) as Hstep.
    destruct (loop_body times0 i r st) as [st'|ps]; simpl; [|assumption].
    apply leaves_turn with (c' := (S i, st')); [assumption|].
    apply IH. intro k. specialize (Hsuf (S k)). simpl in Hsuf.
    now rewrite Hsuf, Nat.add_succ_r.
Qed.
End Determinism.

Lemma scan_chunk_extraction (c : Chunk) : extraction c (scan_chunk c []).
Proof.
  unfold extraction, scan_chunk, scan. now apply scan_from_leaves.
Qed.

(** C9.  The extraction is deterministic: two runs of the loop on the same
    arrays leave the same list of periods, the one the function
    [scan_chunk] computes. *)
Theorem extraction_deterministic (c : Chunk) (ps1 ps2 : list Period) :
  extraction c ps1 -> extraction c ps2 ->
  ps1 = ps2 /\ ps1 = scan_chunk c [].
Proof.
  intros H1 H2. split.
  - exact (leaves_deterministic _ _ _ _ _ H1 H2).
  - exact (leaves_deterministic _ _ _ _ _ H1 (scan_chunk_extraction c)).
Qed.

Lemma extraction_deterministic_witness :
  [mkPeriod 1 4] = [mkPeriod 1 4] /\
  [mkPeriod 1 4] =
    scan_chunk (mkChunk [0; 1; 2; 3; 4; 5; 6] [10; 12; 11; 9; 8; 10; 13]) [].
Proof.
  apply (extraction_deterministic
           (mkChunk [0; 1; 2; 3; 4; 5; 6] [10; 12; 11; 9; 8; 10; 13])
           [mkPeriod 1 4] [mkPeriod 1 4]);
    unfold extraction; simpl; run_loop.
Defined.

(** ** The aggregate output *)








(** ** The carry-forward policy against the single pass *)

Lemma fold_feed_windows (windows : list (list Sample)) : forall st,
  fold_left feed_window windows st = fold_left feed (concat windows) st.
Proof.
  induction windows as [|w ws IH]; intro st; simpl; [reflexivity|].
  now rewrite fold_left_app, IH.
Qed.

(** One more sample for the carried state is one more turn of the loop. *)
Lemma feed_loop_body times0 k st tk ak (sample : Q * Q) :
  nth_error times0 k = Some tk ->
  (in_retrograde st = true -> exists x, open_start times0 st = Some x) ->
  exists st',
    loop_body times0 k (Qltb (normalized_delta (snd sample - ak)) 0) st =
      Done st' /\
    (in_retrograde st' = true -> exists x, open_start times0 st' = Some x) /\
    feed (mkCarry (Some (tk, ak)) (open_start times0 st) (periods st)) sample =
      mkCarry (Some sample) (open_start times0 st') (periods st').
Proof.
  intros Htk Hopen. destruct st as [b si ps].
  unfold feed, loop_body, open_start in *; simpl in *.
  destruct (Qltb (normalized_delta (snd sample - ak)) 0), b; simpl.
  - destruct (Hopen eq_refl) as [x Hx]. rewrite Hx.
    eexists; split; [reflexivity|]; simpl. rewrite Hx.
    split; [intros _; now exists x|reflexivity].
  - eexists; split; [reflexivity|]; simpl. rewrite Htk.
    split; [intros _; now exists tk|reflexivity].
  - destruct (Hopen eq_refl) as [x Hx].
    destruct si as [s|]; [|discriminate]. rewrite Hx, Htk.
    eexists; split; [reflexivity|]; simpl. split; [discriminate|reflexivity].
  - eexists; split; [reflexivity|]; simpl. split; [discriminate|reflexivity].
Qed.

(** After [k + 1] samples the carried state is the state of the scan after
    [k] flags. *)
Lemma feed_follows_scan (series : list (Q * Q)) (k : nat) :
  (k < length series)%nat ->
  exists st sample,
    scan (map fst series) (firstn k (is_retrograde (map snd series))) [] =
      Done st /\
    nth_error series k = Some sample /\
    (in_retrograde st = true ->
     exists x, open_start (map fst series) st = Some x) /\
    fold_left feed (firstn (S k) series) (mkCarry None None []) =
      mkCarry (Some sample) (open_start (map fst series) st) (periods st).
Proof.
  set (times0 := map fst series). set (longitudes0 := map snd series).
  induction k as [|k IH]; intro Hk.
  - destruct series as [|s0 series']; [simpl in Hk; lia|].
    exists (mkScan false None []), s0. repeat split. discriminate.
  - destruct IH as (st & [tk ak] & Est & Hk0 & Hopen & Hfeed); [lia|].
    destruct (nth_error series (S k)) as [[tk' ak']|] eqn:Hk1;
      [|apply nth_error_None in Hk1; lia].
    assert (Hflag : nth_error (is_retrograde longitudes0) k =
                    Some (Qltb (normalized_delta (ak' - ak)) 0)).
    { apply is_retrograde_nth; unfold longitudes0; rewrite nth_error_map.
      - now rewrite Hk0.
      - now rewrite Hk1. }
    assert (Htk : nth_error times0 k = Some tk)
      by (unfold times0; rewrite nth_error_map; now rewrite Hk0).
    destruct (feed_loop_body times0 k st tk ak (tk', ak') Htk Hopen)
      as (st' & Estep & Hopen' & Hfeed').
    exists st', (tk', ak').
    rewrite (firstn_snoc _ _ _ Hflag), scan_snoc, Est.
    rewrite (firstn_length_index _ _ _ Hflag).
    rewrite (firstn_snoc _ _ _ Hk1), fold_left_app, Hfeed.
    repeat split; assumption.
Qed.

(** The policy of the specification is the single pass: the windows of a
    series, however it is cut, give the intervals of the whole series. *)
Lemma carry_forward_one_pass (windows : list (list Sample)) :
  one_pass (concat windows) = Some (carry_forward windows).
Proof.
  unfold carry_forward, one_pass. rewrite fold_feed_windows.
  generalize (concat windows) as series. intro series.
  destruct (Nat.eq_dec (length series) 0) as [H0|Hn].
  - apply length_zero_iff_nil in H0. now subst.
  - destruct (feed_follows_scan series (pred (length series)))
      as (st & [tl al] & Est & Hl & Hopen & Hfeed); [lia|].
    replace (S (pred (length series))) with (length series) in Hfeed by lia.
    rewrite firstn_all in Hfeed.
    rewrite firstn_all2 in Est
      by (rewrite is_retrograde_length, length_map; lia).
    rewrite gen_extract_periods_eq, Est, Hfeed.
    unfold finish, GenerateTestData.close_open_run, open_start in *. simpl.
    assert (Hlast : GenerateTestData.last_time (map fst series) = Some tl).
    { unfold GenerateTestData.last_time.
      rewrite length_map, nth_error_map. now rewrite Hl. }
    destruct (in_retrograde st); [|reflexivity].
    destruct (Hopen eq_refl) as [x Hx].
    destruct (start_idx st) as [s|]; [|discriminate].
    now rewrite Hx, Hlast.
Qed.


(** * The rest of the code: properties *)

(** ** The loop over the chunks *)

Lemma py_range_In (start stop step x : Z) :
  (0 < step)%Z ->
  In x (py_range start stop step) <->
  exists k, (0 <= k)%Z /\ x = (start + k * step)%Z /\ (x < stop)%Z.
Proof.
  intro Hstep. unfold py_range. rewrite in_map_iff. split.
  - intros [k [<- Hk]]. apply in_seq in Hk.
    exists (Z.of_nat k). split; [lia|]. split; [reflexivity|].
    destruct Hk as [_ Hk]. simpl in Hk.
    assert (Hq : (Z.of_nat k < (stop - start + step - 1) / step)%Z) by lia.
    assert (Hm : (step * ((stop - start + step - 1) / step)
                  <= stop - start + step - 1)%Z)
      by (apply Z.mul_div_le; assumption).
    nia.
  - intros [k [Hk [-> Hlt]]]. exists (Z.to_nat k). split.
    + now rewrite Z2Nat.id by assumption.
    + apply in_seq. split; [lia|]. simpl.
      assert (Hq : (k + 1 <= (stop - start + step - 1) / step)%Z)
        by (apply Z.div_le_lower_bound; [assumption|nia]).
      lia.
Qed.

Lemma chunk_end_later START_YEAR END_YEAR chunk_years chunk_start :
  (0 < chunk_years)%Z ->
  In chunk_start (py_range START_YEAR END_YEAR chunk_years) ->
  (chunk_start < chunk_end END_YEAR chunk_years chunk_start)%Z.
Proof.
  intros Hstep Hin.
  pose proof (proj1 (py_range_In _ _ _ _ Hstep) Hin) as [k [Hk [Hx Hlt]]].
  unfold chunk_end. lia.
Qed.

(** X1.  For a positive chunk length every chunk of the loop lies inside the
    requested range: it starts at [START_YEAR] or later and before
    [END_YEAR], its [chunk_end] is later than its start, at most
    [chunk_years] later and at most [END_YEAR]; and a chunk that ends before
    [END_YEAR] ends where the next chunk of the loop starts. *)
Theorem chunk_bounds (START_YEAR END_YEAR chunk_years chunk_start : Z) :
  (0 < chunk_years)%Z ->
  In chunk_start (py_range START_YEAR END_YEAR chunk_years) ->
  (START_YEAR <= chunk_start < END_YEAR)%Z /\
  (chunk_start < chunk_end END_YEAR chunk_years chunk_start <= END_YEAR)%Z /\
  (chunk_end END_YEAR chunk_years chunk_start <= chunk_start + chunk_years)%Z /\
  ((chunk_end END_YEAR chunk_years chunk_start < END_YEAR)%Z ->
   chunk_end END_YEAR chunk_years chunk_start = (chunk_start + chunk_years)%Z /\
   In (chunk_start + chunk_years)%Z (py_range START_YEAR END_YEAR chunk_years)).
Proof.
  intros Hstep Hin.
  pose proof (proj1 (py_range_In _ _ _ _ Hstep) Hin) as [k [Hk [Hx Hlt]]].
  unfold chunk_end.
  split; [nia|]. split; [lia|]. split; [lia|].
  intro Hend. split; [lia|].
  apply (py_range_In _ _ _ _ Hstep). exists (k + 1)%Z.
  split; [lia|]. split; lia.
Qed.

Lemma chunk_bounds_witness :
  (1950 <= 2040 < 2050)%Z /\
  (2040 < chunk_end 2050 10 2040 <= 2050)%Z /\
  (chunk_end 2050 10 2040 <= 2040 + 10)%Z /\
  ((chunk_end 2050 10 2040 < 2050)%Z ->
   chunk_end 2050 10 2040 = (2040 + 10)%Z /\
   In (2040 + 10)%Z (py_range 1950 2050 10)).
Proof.
  apply (chunk_bounds 1950 2050 10 2040); [lia|].
  vm_compute. tauto.
Defined.



(** ** The choice of ephemeris *)

(** X3.  In retrograde_calculator.py a chunk is computed with DE440 exactly
    when it starts in one of the years 1500 to 2600: the choice goes by the
    middle year of the chunk, so the chunks that start in 1500 and in 2600
    are computed with DE440 although they reach outside the span 1550 to
    2650 declared for it. *)
Theorem de440_chunks (chunk_start : Z) :
  In chunk_start
     (py_range Calculator.START_YEAR Calculator.END_YEAR
               Calculator.chunk_years) ->
  (chunk_ephemeris chunk_start = DE440 <-> (1500 <= chunk_start <= 2600)%Z) /\
  (chunk_ephemeris chunk_start = DE441 <->
   (chunk_start < 1500 \/ 2600 < chunk_start)%Z).
Proof.
  intro Hin.
  assert (Hstep : (0 < Calculator.chunk_years)%Z) by reflexivity.
  pose proof (proj1 (py_range_In _ _ _ _ Hstep) Hin) as [k [Hk [Hx Hlt]]].
  unfold Calculator.START_YEAR, Calculator.END_YEAR,
    Calculator.chunk_years in *.
  unfold chunk_ephemeris, get_ephemeris_and_earth, mid_year, chunk_end,
    Calculator.END_YEAR, Calculator.chunk_years, DE440_START, DE440_END.
  rewrite Z.min_l by lia.
  replace (chunk_start + (chunk_start + 100))%Z
    with ((chunk_start + 50) * 2)%Z by lia.
  rewrite Z.div_mul by discriminate.
  destruct (1550 <=? chunk_start + 50)%Z eqn:E1;
    destruct (chunk_start + 50 <=? 2650)%Z eqn:E2; simpl;
    try apply Z.leb_le in E1; try apply Z.leb_le in E2;
    try apply Z.leb_gt in E1; try apply Z.leb_gt in E2;
    (split; split; intro H; try discriminate; try reflexivity; try lia).
Qed.

Lemma de440_chunks_witness :
  (chunk_ephemeris 1500 = DE440 <-> (1500 <= 1500 <= 2600)%Z) /\
  (chunk_ephemeris 1500 = DE441 <-> (1500 < 1500 \/ 2600 < 1500)%Z).
Proof.
  apply (de440_chunks 1500).
  apply in_map_iff. exists 115%nat. split; [reflexivity|].
  apply in_seq. vm_compute. lia.
Defined.

(** ** [np.linspace] *)

Lemma removelast_map_seq {A : Type} (f : nat -> A) (m : nat) :
  removelast (map f (seq 0 (S m))) = map f (seq 0 m).
Proof.
  rewrite seq_S, map_app. simpl. apply removelast_last.
Qed.

(** For [start < stop] and at least two samples the array is the grid of
    step [(stop - start) / (num - 1)], its last element set to [stop]. *)
Lemma np_linspace_grid (start stop : Q) (num : Z) :
  start < stop -> (2 <= num)%Z ->
  np_linspace start stop num =
  Some (map (grid start ((stop - start) / inject_Z (num - 1)))
            (seq 0 (Z.to_nat num - 1)) ++ [stop]).
Proof.
  intros Hlt Hnum. unfold np_linspace.
  destruct (num <? 0)%Z eqn:E0; [apply Z.ltb_lt in E0; lia|].
  destruct (0 <? num - 1)%Z eqn:E1; [|apply Z.ltb_ge in E1; lia].
  destruct (1 <? num)%Z eqn:E2; [|apply Z.ltb_ge in E2; lia].
  assert (Hdiv : 0 < inject_Z (num - 1)).
  { change 0 with (inject_Z 0). rewrite <- Zlt_Qlt. lia. }
  assert (Hstep : 0 < (stop - start) / inject_Z (num - 1)).
  { apply Qlt_shift_div_l; [assumption|]. lra. }
  destruct (Qeq_bool ((stop - start) / inject_Z (num - 1)) 0) eqn:Ez.
  { apply Qeq_bool_iff in Ez. rewrite Ez in Hstep. exfalso.
    exact (Qlt_irrefl 0 Hstep). }
  f_equal. unfold np_arange. rewrite !map_map.
  destruct (Z.to_nat num) as [|m] eqn:Em; [lia|].
  unfold set_last.
  destruct (map _ (seq 0 (S m))) eqn:El; [discriminate|]. rewrite <- El.
  rewrite removelast_map_seq. simpl. now rewrite Nat.sub_0_r.
Qed.

Lemma grid_lt (start step : Q) (i j : nat) :
  0 < step -> (i < j)%nat -> grid start step i < grid start step j.
Proof.
  intros Hstep Hij. unfold grid.
  assert (H : inject_Z (Z.of_nat i) < inject_Z (Z.of_nat j))
    by (rewrite <- Zlt_Qlt; lia).
  nra.
Qed.

Lemma grid_sorted (start step : Q) (len : nat) :
  0 < step -> forall s,
  StronglySorted Qlt (map (grid start step) (seq s len)).
Proof.
  intro Hstep. induction len as [|len IH]; intro s; simpl; constructor.
  - apply IH.
  - apply Forall_forall. intros x Hx. apply in_map_iff in Hx.
    destruct Hx as [j [<- Hj]]. apply in_seq in Hj.
    apply grid_lt; [assumption|lia].
Qed.

(** The grid reaches [stop] after [num - 1] steps. *)
Lemma grid_end (start stop : Q) (num : Z) :
  (2 <= num)%Z ->
  grid start ((stop - start) / inject_Z (num - 1)) (Z.to_nat num - 1) == stop.
Proof.
  intro Hnum. unfold grid.
  replace (Z.of_nat (Z.to_nat num - 1)) with (num - 1)%Z by lia.
  assert (Hdiv : ~ inject_Z (num - 1) == 0).
  { intro H. change 0 with (inject_Z 0) in H. apply eq_sym, Qeq_sym in H.
    apply Qeq_sym in H. unfold Qeq in H. simpl in H. lia. }
  field. exact Hdiv.
Qed.

Lemma set_last_length (y : list Q) (stop : Q) :
  length (set_last y stop) = length y.
Proof.
  destruct y as [|v y]; [reflexivity|]. unfold set_last.
  rewrite length_app, removelast_firstn_len, firstn_length_le by lia.
  simpl. lia.
Qed.

(** Whatever the bounds, [num >= 0] samples come back. *)
Lemma np_linspace_length (start stop : Q) (num : Z) samples :
  np_linspace start stop num = Some samples ->
  (0 <= num)%Z /\ length samples = Z.to_nat num.
Proof.
  unfold np_linspace. destruct (num <? 0)%Z eqn:E0; [discriminate|].
  apply Z.ltb_ge in E0. intro E. split; [assumption|].
  assert (Ha : length (np_arange num) = Z.to_nat num)
    by (unfold np_arange; now rewrite length_map, length_seq).
  destruct (0 <? num - 1)%Z.
  - inversion E; subst samples; clear E.
    destruct (1 <? num)%Z; [rewrite set_last_length|];
      destruct (Qeq_bool _ 0); now rewrite !length_map.
  - inversion E. now rewrite !length_map.
Qed.

(** For [start < stop] the samples increase strictly and stay between the
    two bounds, however many they are. *)
Lemma np_linspace_increasing (start stop : Q) (num : Z) samples :
  start < stop ->
  np_linspace start stop num = Some samples ->
  strictly_increasing samples /\
  Forall (fun t => start <= t /\ t <= stop) samples.
Proof.
  intros Hlt E.
  destruct (Z_lt_le_dec num 2) as [Hsmall|Hnum].
  - (* at most one sample *)
    pose proof (np_linspace_length _ _ _ _ E) as [H0 Hlen].
    unfold np_linspace in E.
    destruct (num <? 0)%Z; [discriminate|].
    destruct (0 <? num - 1)%Z eqn:E1; [apply Z.ltb_lt in E1; lia|].
    inversion E; subst samples; clear E.
    assert (Hn : num = 0%Z \/ num = 1%Z) by lia.
    destruct Hn as [-> | ->]; simpl.
    + split; constructor.
    + split; [repeat constructor|].
      constructor; [|constructor]. unfold inject_Z. split; lra.
  - set (step := (stop - start) / inject_Z (num - 1)).
    assert (Hdiv : 0 < inject_Z (num - 1)).
    { change 0 with (inject_Z 0). rewrite <- Zlt_Qlt. lia. }
    assert (Hstep : 0 < step).
    { apply Qlt_shift_div_l; [assumption|]. lra. }
    assert (Hbelow : forall i, (i < Z.to_nat num - 1)%nat ->
                               start <= grid start step i /\
                               grid start step i < stop).
    { intros i Hi. split.
      - unfold grid.
        assert (0 <= inject_Z (Z.of_nat i))
          by (change 0 with (inject_Z 0); rewrite <- Zle_Qle; lia).
        nra.
      - rewrite <- (grid_end start stop num Hnum). fold step.
        apply grid_lt; assumption. }
    rewrite (np_linspace_grid start stop num Hlt Hnum) in E.
    inversion E; subst samples; clear E. fold step. split.
    + apply sorted_app; [now apply grid_sorted|repeat constructor|].
      intros x y Hx [<-|[]]. apply in_map_iff in Hx.
      destruct Hx as [i [<- Hi]]. apply in_seq in Hi. apply Hbelow. lia.
    + apply Forall_app. split.
      * apply Forall_forall. intros x Hx. apply in_map_iff in Hx.
        destruct Hx as [i [<- Hi]]. apply in_seq in Hi.
        destruct (Hbelow i) as [H1 H2]; [lia|]. split; [assumption|lra].
      * constructor; [|constructor]. split; lra.
Qed.



(** ** The sampling step of the two finders *)

Lemma py_int_bounds (x : Q) :
  0 <= x -> inject_Z (py_int x) <= x /\ x < inject_Z (py_int x) + 1.
Proof.
  destruct x as [n d]. unfold py_int, Qle, Qlt. simpl. intro Hn.
  assert (Hn0 : (0 <= n)%Z) by lia.
  rewrite Z.quot_div_nonneg by lia.
  pose proof (Z.mul_div_le n (Z.pos d) ltac:(lia)).
  pose proof (Z.mul_succ_div_gt n (Z.pos d) ltac:(lia)).
  split; nia.
Qed.

Lemma inject_Z_pos (z : Z) : (0 < z)%Z -> 0 < inject_Z z.
Proof. intro H. change 0 with (inject_Z 0). now rewrite <- Zlt_Qlt. Qed.

Lemma inject_Z_pred (z : Z) : inject_Z (z - 1) == inject_Z z - 1.
Proof. unfold Z.sub. rewrite inject_Z_plus. reflexivity. Qed.

(** Two neighbours of the array are one step apart. *)
Lemma np_linspace_spacing (start stop : Q) (num : Z) samples i x y :
  start < stop -> (2 <= num)%Z ->
  np_linspace start stop num = Some samples ->
  nth_error samples i = Some x -> nth_error samples (S i) = Some y ->
  y - x == (stop - start) / inject_Z (num - 1).
Proof.
  intros Hlt Hnum E Hx Hy.
  rewrite (np_linspace_grid start stop num Hlt Hnum) in E.
  inversion E; subst samples; clear E.
  set (step := (stop - start) / inject_Z (num - 1)) in *.
  set (m := (Z.to_nat num - 1)%nat) in *.
  assert (Hlen : length (map (grid start step) (seq 0 m)) = m)
    by now rewrite length_map, length_seq.
  assert (Hi : (S i <= m)%nat).
  { assert (H : (S i < length (map (grid start step) (seq 0 m) ++ [stop]))%nat)
      by (apply nth_error_Some; congruence).
    rewrite length_app, Hlen in H. simpl in H. lia. }
  assert (Ex : x = grid start step i).
  { rewrite nth_error_app1 in Hx by lia.
    rewrite nth_error_map, nth_error_seq in Hx.
    destruct (Nat.ltb_spec i m); [|lia]. simpl in Hx. now inversion Hx. }
  assert (Ey : y == grid start step (S i)).
  { destruct (Nat.eq_dec (S i) m) as [Em|Hne].
    - rewrite nth_error_app2 in Hy by lia. rewrite Hlen, Em, Nat.sub_diag in Hy.
      simpl in Hy. inversion Hy; subst y. rewrite Em.
      symmetry. apply grid_end. assumption.
    - rewrite nth_error_app1 in Hy by lia.
      rewrite nth_error_map, nth_error_seq in Hy.
      destruct (Nat.ltb_spec (S i) m); [|lia]. simpl in Hy.
      inversion Hy. reflexivity. }
  rewrite Ey, Ex. unfold grid.
  rewrite Nat2Z.inj_succ. unfold Z.succ. rewrite inject_Z_plus. ring.
Qed.

(** X5.  In retrograde_calculator_1950_2050.py a window that spans at least
    two days gets at most one sample per day of its span, and neighbouring
    samples are strictly more than one day apart: the samples drift off the
    daily grid. *)
Theorem finder_1950_step_over_one_day (start_tt end_tt : Q) samples i x y :
  2 <= end_tt - start_tt ->
  Calculator1950Window.times start_tt end_tt = Some samples ->
  nth_error samples i = Some x -> nth_error samples (S i) = Some y ->
  inject_Z (Z.of_nat (length samples)) <= end_tt - start_tt /\
  1 < y - x.
Proof.
  intros HD E Hx Hy. unfold Calculator1950Window.times in E.
  set (num := Calculator1950Window.num_days start_tt end_tt) in *.
  destruct (py_int_bounds (end_tt - start_tt)) as [Hlo Hhi]; [lra|].
  fold (Calculator1950Window.num_days start_tt end_tt) in Hlo, Hhi.
  fold num in Hlo, Hhi.
  assert (Hnum : (2 <= num)%Z).
  { assert (H : inject_Z 1 < inject_Z num) by (change (inject_Z 1) with 1; lra).
    rewrite <- Zlt_Qlt in H. lia. }
  assert (Hlt : start_tt < end_tt) by lra.
  destruct (np_linspace_length _ _ _ _ E) as [_ Hlen]. split.
  - rewrite Hlen, Z2Nat.id by lia. assumption.
  - rewrite (np_linspace_spacing _ _ _ _ _ _ _ Hlt Hnum E Hx Hy).
    apply Qlt_shift_div_l; [apply inject_Z_pos; lia|].
    rewrite inject_Z_pred. lra.
Qed.

Lemma finder_1950_step_over_one_day_witness :
  inject_Z (Z.of_nat (length [0 # 6; 9 # 6; 18 # 6; 9 # 2])) <= (9 # 2) - 0 /\
  1 < (9 # 6) - (0 # 6).
Proof.
  apply (finder_1950_step_over_one_day 0 (9 # 2) [0 # 6; 9 # 6; 18 # 6; 9 # 2]
           0%nat (0 # 6) (9 # 6)); [|reflexivity|reflexivity|reflexivity].
  unfold Qle; simpl; lia.
Defined.

(** X6.  In retrograde_calculator.py the number of samples is the span in
    days times 365.25, truncated: for a window of at least one day there are
    more than [365.25 * days - 1] samples, and neighbouring samples are less
    than 1/363 of a day apart, not one day. *)
Theorem calculator_step_under_one_day (start_tt end_tt : Q) samples i x y :
  1 <= end_tt - start_tt ->
  CalculatorWindow.times start_tt end_tt = Some samples ->
  nth_error samples i = Some x -> nth_error samples (S i) = Some y ->
  365.25 * (end_tt - start_tt) - 1 < inject_Z (Z.of_nat (length samples)) /\
  363 * (y - x) < 1.
Proof.
  intros HD E Hx Hy. unfold CalculatorWindow.times in E.
  set (num := CalculatorWindow.num_days start_tt end_tt) in *.
  destruct (py_int_bounds ((end_tt - start_tt) * 365.25)) as [Hlo Hhi]; [lra|].
  fold (CalculatorWindow.num_days start_tt end_tt) in Hlo, Hhi.
  fold num in Hlo, Hhi.
  assert (Hnum : (2 <= num)%Z).
  { assert (H : inject_Z 1 < inject_Z num) by (change (inject_Z 1) with 1; lra).
    rewrite <- Zlt_Qlt in H. lia. }
  assert (Hlt : start_tt < end_tt) by lra.
  destruct (np_linspace_length _ _ _ _ E) as [_ Hlen]. split.
  - rewrite Hlen, Z2Nat.id by lia. lra.
  - rewrite (np_linspace_spacing _ _ _ _ _ _ _ Hlt Hnum E Hx Hy).
    assert (Hdiv : 0 < inject_Z (num - 1)) by (apply inject_Z_pos; lia).
    assert (Hbig : 363 * (end_tt - start_tt) < inject_Z (num - 1)).
    { rewrite inject_Z_pred. lra. }
    unfold Qdiv. rewrite Qmult_assoc.
    apply Qlt_shift_div_r; [assumption|]. lra.
Qed.

Lemma calculator_step_under_one_day_witness :
  exists samples x y,
    CalculatorWindow.times 0 1 = Some samples /\
    nth_error samples 0 = Some x /\ nth_error samples 1 = Some y /\
    365.25 * (1 - 0) - 1 < inject_Z (Z.of_nat (length samples)) /\
    363 * (y - x) < 1.
Proof.
  destruct (CalculatorWindow.times 0 1) as [samples|] eqn:E;
    [|vm_compute in E; discriminate].
  destruct (nth_error samples 0) as [x|] eqn:Ex;
    [|vm_compute in E; inversion E; subst; discriminate].
  destruct (nth_error samples 1) as [y|] eqn:Ey;
    [|vm_compute in E; inversion E; subst; discriminate].
  exists samples, x, y.
  split; [reflexivity|]. split; [exact Ex|]. split; [exact Ey|].
  apply (calculator_step_under_one_day 0 1 samples 0%nat x y);
    [unfold Qle; simpl; lia|exact E|exact Ex|exact Ey].
Defined.

(** ** A finder whose chunks may fail *)

Lemma fold_failed {A B : Type} (F : option B -> A -> option B) (l : list A) :
  (forall x, F None x = None) -> fold_left F l None = None.
Proof.
  intro HF. induction l as [|x l IH]; simpl; [reflexivity|]. now rewrite HF.
Qed.

Lemma find_or_fail_fold END_YEAR chunk_years observe (l : list Z) :
  forall acc,
    fold_left
      (fun acc chunk_start =>
         match acc with
         | None => None
         | Some periods0 =>
             match observe chunk_start
                     (chunk_end END_YEAR chunk_years chunk_start) with
             | Skipped => Some periods0
             | Failed => None
             | Sampled c => Some (scan_chunk c periods0)
             end
         end) l (Some acc) =
    if existsb (fun chunk_start =>
                  match observe chunk_start
                          (chunk_end END_YEAR chunk_years chunk_start) with
                  | Failed => true
                  | _ => false
                  end) l
    then None
    else Some (fold_left
                 (chunk_step END_YEAR chunk_years
                    (fun cs ce => observed_or_skipped (observe cs ce)))
                 l acc).
Proof.
  induction l as [|cs l IH]; intro acc; simpl; [reflexivity|].
  unfold chunk_step at 2, observed.
  destruct (observe cs (chunk_end END_YEAR chunk_years cs)) as [| |c]; simpl.
  - apply IH.
  - apply fold_failed. reflexivity.
  - apply IH.
Qed.


(** ** A body the ephemerides do not hold *)

Lemma py_int_nonneg (x : Q) : 0 <= x -> (0 <= py_int x)%Z.
Proof.
  destruct x as [n d]. unfold py_int, Qle. simpl. intro H.
  apply Z.quot_pos; lia.
Qed.

Lemma np_linspace_defined (start stop : Q) (num : Z) :
  (0 <= num)%Z -> exists samples, np_linspace start stop num = Some samples.
Proof.
  intro H. unfold np_linspace.
  destruct (num <? 0)%Z eqn:E; [apply Z.ltb_lt in E; lia|].
  destruct (0 <? num - 1)%Z; eexists; reflexivity.
Qed.

Lemma calculator_times_defined (start_tt end_tt : Q) :
  start_tt <= end_tt ->
  exists samples, CalculatorWindow.times start_tt end_tt = Some samples.
Proof.
  intro H. apply np_linspace_defined. apply py_int_nonneg. nra.
Qed.

Lemma finder_1950_times_defined (start_tt end_tt : Q) :
  start_tt <= end_tt ->
  exists samples, Calculator1950Window.times start_tt end_tt = Some samples.
Proof.
  intro H. apply np_linspace_defined. apply py_int_nonneg. lra.
Qed.

(** A loop all of whose chunks are skipped returns the empty list. *)
Lemma find_or_fail_all_skipped START_YEAR END_YEAR chunk_years observe :
  (forall chunk_start,
      In chunk_start (py_range START_YEAR END_YEAR chunk_years) ->
      observe chunk_start (chunk_end END_YEAR chunk_years chunk_start)
      = Skipped) ->
  find_or_fail START_YEAR END_YEAR chunk_years observe = Some [].
Proof.
  unfold find_or_fail.
  generalize (py_range START_YEAR END_YEAR chunk_years) as l.
  intros l H. induction l as [|cs l IH]; simpl; [reflexivity|].
  rewrite (H cs) by now left. apply IH. intros cs' Hin. apply H. now right.
Qed.

(** A loop one of whose chunks fails fails. *)
Lemma find_or_fail_failed START_YEAR END_YEAR chunk_years observe chunk_start :
  In chunk_start (py_range START_YEAR END_YEAR chunk_years) ->
  observe chunk_start (chunk_end END_YEAR chunk_years chunk_start) = Failed ->
  find_or_fail START_YEAR END_YEAR chunk_years observe = None.
Proof.
  intros Hin Hf. unfold find_or_fail. rewrite find_or_fail_fold.
  replace (existsb _ (py_range START_YEAR END_YEAR chunk_years)) with true;
    [reflexivity|].
  symmetry. apply existsb_exists. exists chunk_start.
  split; [assumption|]. now rewrite Hf.
Qed.

(** X8.  In retrograde_calculator.py a body that neither ephemeris holds is
    skipped in every chunk: the finder returns the empty list, it does not
    fail.  So it is for a body whose observation raises in every chunk. *)
Theorem planet_in_no_ephemeris (Body : Type)
    (eph_440 eph_441 : BodyKey -> option Body) (earth_440 earth_441 : Body)
    (utc_tt : Z -> Z -> Z -> Q)
    (observe_longitudes : Body -> Body -> list Q -> option (list Q))
    (planet_key : BodyKey) :
  (forall chunk_start,
      In chunk_start (py_range Calculator.START_YEAR Calculator.END_YEAR
                               Calculator.chunk_years) ->
      utc_tt chunk_start 1%Z 1%Z <=
      utc_tt (chunk_end Calculator.END_YEAR Calculator.chunk_years chunk_start)
             12%Z 31%Z) ->
  (eph_440 planet_key = None /\ eph_441 planet_key = None) \/
  (forall origin target times0, observe_longitudes origin target times0 = None) ->
  RetrogradeFinder.find_retrograde_periods Body eph_440 eph_441
    earth_440 earth_441 utc_tt observe_longitudes planet_key = Some [].
Proof.
  intros Hwin Hmissing. apply find_or_fail_all_skipped.
  intros cs Hin. unfold RetrogradeFinder.observe_planet.
  destruct (calculator_times_defined _ _ (Hwin cs Hin)) as [ts ->].
  unfold RetrogradeFinder.lookup_planet.
  destruct Hmissing as [[H440 H441]|Hobs].
  - destruct (get_ephemeris_and_earth _); simpl; now rewrite H440, H441.
  - destruct (match RetrogradeFinder.eph_of Body eph_440 eph_441 _ planet_key with
              | Some planet => Some planet
              | None => _
              end); [|reflexivity].
    now rewrite Hobs.
Qed.

Lemma planet_in_no_ephemeris_witness :
  RetrogradeFinder.find_retrograde_periods unit
    (fun _ => None) (fun _ => None) tt tt
    (fun year month day => inject_Z (year * 372 + month * 31 + day))
    (fun _ _ times0 => Some times0) (Number 2060) = Some [].
Proof.
  apply planet_in_no_ephemeris; [|left; split; reflexivity].
  intros cs Hin.
  assert (Hend : (cs < chunk_end Calculator.END_YEAR Calculator.chunk_years cs)%Z)
    by (apply (chunk_end_later Calculator.START_YEAR); [reflexivity|exact Hin]).
  rewrite <- Zle_Qle. lia.
Defined.

(** X9.  In retrograde_calculator_1950_2050.py an observer is skipped in
    every chunk, and the finder returns the empty list, when the observer is
    Chiron and no asteroid ephemeris was loaded, or when it is another body
    that the main ephemeris, which holds the Earth, does not hold. *)
Theorem observer_skipped_1950 (Body : Type)
    (eph : BodyKey -> option Body)
    (asteroid_eph : option (BodyKey -> option Body))
    (utc_tt : Z -> Z -> Z -> Q)
    (observe_longitudes : Body -> Body -> list Q -> option (list Q))
    (observer_name : string) (observer_key : BodyKey) :
  (forall chunk_start,
      In chunk_start (py_range Calculator1950.START_YEAR
                               Calculator1950.END_YEAR
                               Calculator1950.chunk_years) ->
      utc_tt chunk_start 1%Z 1%Z <=
      utc_tt (chunk_end Calculator1950.END_YEAR Calculator1950.chunk_years
                        chunk_start) 12%Z 31%Z) ->
  (observer_name = "chiron"%string /\ asteroid_eph = None) \/
  (observer_name <> "chiron"%string /\
   (exists earth, eph (Name "earth") = Some earth) /\
   eph observer_key = None) ->
  EarthRetrogradeFinder.find_earth_retrograde_periods Body eph asteroid_eph
    utc_tt observe_longitudes observer_name observer_key = Some [].
Proof.
  intros Hwin Hcase. apply find_or_fail_all_skipped.
  intros cs Hin. unfold EarthRetrogradeFinder.observe_earth.
  destruct (finder_1950_times_defined _ _ (Hwin cs Hin)) as [ts ->].
  destruct Hcase as [[-> ->]|[Hname [[earth Hearth] Hkey]]].
  - reflexivity.
  - apply String.eqb_neq in Hname. now rewrite Hname, Hearth, Hkey.
Qed.

Lemma observer_skipped_1950_witness :
  EarthRetrogradeFinder.find_earth_retrograde_periods unit
    (fun _ => None) None
    (fun year month day => inject_Z (year * 372 + month * 31 + day))
    (fun _ _ times0 => Some times0) "chiron" (Number 2060) = Some [].
Proof.
  apply observer_skipped_1950; [|left; split; reflexivity].
  intros cs Hin.
  assert (Hend : (cs < chunk_end Calculator1950.END_YEAR
                         Calculator1950.chunk_years cs)%Z)
    by (apply (chunk_end_later Calculator1950.START_YEAR);
        [reflexivity|exact Hin]).
  rewrite <- Zle_Qle. lia.
Defined.

Lemma first_chunk_1950 :
  In 1950%Z (py_range Calculator1950.START_YEAR Calculator1950.END_YEAR
                      Calculator1950.chunk_years).
Proof. vm_compute. tauto. Qed.

(** X10.  In retrograde_calculator_1950_2050.py the lookups of Chiron and
    of the Earth in the asteroid ephemeris, and of the Earth in the main
    ephemeris, are outside any [try]: with an asteroid ephemeris that lacks
    the Earth or the observer's key the finder for Chiron fails in its first
    chunk, and so does the finder of any other observer when the main
    ephemeris lacks the Earth; it returns no list. *)
Theorem observer_lookup_fails_1950 (Body : Type)
    (eph : BodyKey -> option Body)
    (asteroid_eph : option (BodyKey -> option Body))
    (utc_tt : Z -> Z -> Z -> Q)
    (observe_longitudes : Body -> Body -> list Q -> option (list Q))
    (observer_name : string) (observer_key : BodyKey) :
  (observer_name = "chiron"%string /\
   exists asteroids,
     asteroid_eph = Some asteroids /\
     (asteroids (Name "earth") = None \/ asteroids observer_key = None)) \/
  (observer_name <> "chiron"%string /\ eph (Name "earth") = None) ->
  EarthRetrogradeFinder.find_earth_retrograde_periods Body eph asteroid_eph
    utc_tt observe_longitudes observer_name observer_key = None.
Proof.
  intro Hcase. apply (find_or_fail_failed _ _ _ _ _ first_chunk_1950).
  unfold EarthRetrogradeFinder.observe_earth.
  destruct (Calculator1950Window.times _ _) as [ts|]; [|reflexivity].
  destruct Hcase as [[-> [ast [-> Hlack]]]|[Hname Hearth]].
  - simpl. destruct (ast (Name "earth")) as [earth|]; [|reflexivity].
    destruct Hlack as [H|H]; [discriminate|]. now rewrite H.
  - apply String.eqb_neq in Hname. now rewrite Hname, Hearth.
Qed.

Lemma observer_lookup_fails_1950_witness :
  EarthRetrogradeFinder.find_earth_retrograde_periods unit
    (fun _ => Some tt)
    (Some (fun key => match key with Name _ => Some tt | Number _ => None end))
    (fun year month day => inject_Z (year * 372 + month * 31 + day))
    (fun _ _ times0 => Some times0) "chiron" (Number 2060) = None.
Proof.
  apply observer_lookup_fails_1950. left. split; [reflexivity|].
  eexists. split; [reflexivity|]. right. reflexivity.
Defined.

(** ** The periods of a finder lie inside the windows of its chunks *)

Lemma find_or_fail_periods START_YEAR END_YEAR chunk_years observe ps p :
  find_or_fail START_YEAR END_YEAR chunk_years observe = Some ps ->
  In p ps ->
  exists chunk_start c a b,
    In chunk_start (py_range START_YEAR END_YEAR chunk_years) /\
    observe chunk_start (chunk_end END_YEAR chunk_years chunk_start)
    = Sampled c /\
    period_run (times c) (is_retrograde (longitudes c)) p a b.
Proof.
  unfold find_or_fail. rewrite find_or_fail_fold.
  destruct (existsb _ _); [discriminate|]. intros E Hp. inversion E; subst ps.
  fold (find_retrograde_periods START_YEAR END_YEAR chunk_years
          (fun cs ce => observed_or_skipped (observe cs ce))) in Hp.
  destruct (finder_periods_are_runs _ _ _ _ _ Hp) as (c & a & b & Hc & Hrun).
  unfold observed_chunks in Hc. apply in_flat_map in Hc.
  destruct Hc as [cs [Hcs Hc]]. unfold observed in Hc.
  exists cs, c, a, b. split; [assumption|]. split; [|assumption].
  destruct (observe cs (chunk_end END_YEAR chunk_years cs)) as [| |c'];
    simpl in Hc; try contradiction.
  destruct Hc as [->|[]]. reflexivity.
Qed.

(** The periods of a chunk sampled by [np.linspace] between two dates. *)
Lemma linspace_chunk_period (start_tt end_tt : Q) (num : Z) ts lon p a b :
  start_tt < end_tt ->
  np_linspace start_tt end_tt num = Some ts ->
  period_run ts (is_retrograde lon) p a b ->
  start_tt <= start_jd p /\ start_jd p < end_jd p /\ end_jd p <= end_tt.
Proof.
  intros Hlt E Hrun.
  destruct (np_linspace_increasing _ _ _ _ Hlt E) as [Hs Hall].
  rewrite Forall_forall in Hall.
  pose proof (period_run_lt _ _ _ _ _ Hs Hrun) as Hpos.
  destruct Hrun as [_ [Ha Hb]].
  apply nth_error_In in Ha, Hb.
  destruct (Hall _ Ha) as [H1 _]. destruct (Hall _ Hb) as [_ H2].
  repeat split; assumption.
Qed.

(** X11.  In retrograde_calculator.py, when the first day of every chunk
    is before its last day, every period the finder returns starts strictly
    before it ends and lies between the first and the last day of one chunk
    of the loop. *)
Theorem calculator_periods_inside_windows (Body : Type)
    (eph_440 eph_441 : BodyKey -> option Body) (earth_440 earth_441 : Body)
    (utc_tt : Z -> Z -> Z -> Q)
    (observe_longitudes : Body -> Body -> list Q -> option (list Q))
    (planet_key : BodyKey) (ps : list Period) (p : Period) :
  (forall chunk_start,
      In chunk_start (py_range Calculator.START_YEAR Calculator.END_YEAR
                               Calculator.chunk_years) ->
      utc_tt chunk_start 1%Z 1%Z <
      utc_tt (chunk_end Calculator.END_YEAR Calculator.chunk_years chunk_start)
             12%Z 31%Z) ->
  RetrogradeFinder.find_retrograde_periods Body eph_440 eph_441
    earth_440 earth_441 utc_tt observe_longitudes planet_key = Some ps ->
  In p ps ->
  start_jd p < end_jd p /\
  exists chunk_start,
    In chunk_start (py_range Calculator.START_YEAR Calculator.END_YEAR
                             Calculator.chunk_years) /\
    utc_tt chunk_start 1%Z 1%Z <= start_jd p /\
    end_jd p <=
    utc_tt (chunk_end Calculator.END_YEAR Calculator.chunk_years chunk_start)
           12%Z 31%Z.
Proof.
  intros Hwin E Hp.
  destruct (find_or_fail_periods _ _ _ _ _ _ E Hp)
    as (cs & c & a & b & Hcs & Hobs & Hrun).
  unfold RetrogradeFinder.observe_planet in Hobs.
  destruct (CalculatorWindow.times _ _) as [ts|] eqn:Et; [|discriminate].
  destruct (RetrogradeFinder.lookup_planet _ _ _ _ _) as [planet|];
    [|discriminate].
  destruct (observe_longitudes _ planet ts) as [lon|]; [|discriminate].
  inversion Hobs; subst c; clear Hobs. simpl in Hrun.
  destruct (linspace_chunk_period _ _ _ _ _ _ _ _ (Hwin cs Hcs) Et Hrun)
    as (H1 & H2 & H3).
  split; [assumption|]. exists cs. repeat split; assumption.
Qed.

Lemma calculator_periods_inside_windows_witness :
  exists ps p,
    RetrogradeFinder.find_retrograde_periods unit
      (fun _ => Some tt) (fun _ => None) tt tt
      (fun year month day => (year * 12 + month) # 100000)
      (fun _ _ _ => Some [10; 8; 9; 10]) (Name "MARS BARYCENTER") = Some ps /\
    In p ps /\
    start_jd p < end_jd p /\
    exists chunk_start,
      In chunk_start (py_range Calculator.START_YEAR Calculator.END_YEAR
                               Calculator.chunk_years) /\
      (chunk_start * 12 + 1) # 100000 <= start_jd p /\
      end_jd p <=
      (chunk_end Calculator.END_YEAR Calculator.chunk_years chunk_start * 12
       + 12) # 100000.
Proof.
  destruct (RetrogradeFinder.find_retrograde_periods unit
              (fun _ => Some tt) (fun _ => None) tt tt
              (fun year month day => (year * 12 + month) # 100000)
              (fun _ _ _ => Some [10; 8; 9; 10]) (Name "MARS BARYCENTER"))
    as [ps|] eqn:E; [|vm_compute in E; discriminate].
  destruct ps as [|p ps]; [vm_compute in E; discriminate|].
  exists (p :: ps), p. split; [reflexivity|]. split; [now left|].
  apply (calculator_periods_inside_windows unit
           (fun _ => Some tt) (fun _ => None) tt tt
           (fun year month day => (year * 12 + month) # 100000)
           (fun _ _ _ => Some [10; 8; 9; 10]) (Name "MARS BARYCENTER")
           (p :: ps) p); [|exact E|now left].
  intros cs Hin.
  assert (Hend : (cs < chunk_end Calculator.END_YEAR Calculator.chunk_years cs)%Z)
    by (apply (chunk_end_later Calculator.START_YEAR); [reflexivity|exact Hin]).
  unfold Qlt. simpl. lia.
Defined.

(** X12.  The same in retrograde_calculator_1950_2050.py: every period the
    finder returns starts strictly before it ends and lies between the
    first and the last day of one chunk of the loop. *)
Theorem finder_1950_periods_inside_windows (Body : Type)
    (eph : BodyKey -> option Body)
    (asteroid_eph : option (BodyKey -> option Body))
    (utc_tt : Z -> Z -> Z -> Q)
    (observe_longitudes : Body -> Body -> list Q -> option (list Q))
    (observer_name : string) (observer_key : BodyKey)
    (ps : list Period) (p : Period) :
  (forall chunk_start,
      In chunk_start (py_range Calculator1950.START_YEAR
                               Calculator1950.END_YEAR
                               Calculator1950.chunk_years) ->
      utc_tt chunk_start 1%Z 1%Z <
      utc_tt (chunk_end Calculator1950.END_YEAR Calculator1950.chunk_years
                        chunk_start) 12%Z 31%Z) ->
  EarthRetrogradeFinder.find_earth_retrograde_periods Body eph asteroid_eph
    utc_tt observe_longitudes observer_name observer_key = Some ps ->
  In p ps ->
  start_jd p < end_jd p /\
  exists chunk_start,
    In chunk_start (py_range Calculator1950.START_YEAR
                             Calculator1950.END_YEAR
                             Calculator1950.chunk_years) /\
    utc_tt chunk_start 1%Z 1%Z <= start_jd p /\
    end_jd p <=
    utc_tt (chunk_end Calculator1950.END_YEAR Calculator1950.chunk_years
                      chunk_start) 12%Z 31%Z.
Proof.
  intros Hwin E Hp.
  destruct (find_or_fail_periods _ _ _ _ _ _ E Hp)
    as (cs & c & a & b & Hcs & Hobs & Hrun).
  unfold EarthRetrogradeFinder.observe_earth in Hobs.
  destruct (Calculator1950Window.times _ _) as [ts|] eqn:Et; [|discriminate].
  assert (Hc : exists lon, c = mkChunk ts lon).
  { unfold EarthRetrogradeFinder.sample in Hobs.
    destruct (String.eqb observer_name "chiron").
    - destruct asteroid_eph as [ast|]; [|discriminate].
      destruct (ast (Name "earth")) as [earth|]; [|discriminate].
      destruct (ast observer_key) as [observer|]; [|discriminate].
      destruct (observe_longitudes observer earth ts) as [lon|];
        [|discriminate].
      exists lon. now inversion Hobs.
    - destruct (eph (Name "earth")) as [earth|]; [|discriminate].
      destruct (eph observer_key) as [observer|]; [|discriminate].
      destruct (observe_longitudes observer earth ts) as [lon|];
        [|discriminate].
      exists lon. now inversion Hobs. }
  destruct Hc as [lon ->]. simpl in Hrun.
  destruct (linspace_chunk_period _ _ _ _ _ _ _ _ (Hwin cs Hcs) Et Hrun)
    as (H1 & H2 & H3).
  split; [assumption|]. exists cs. repeat split; assumption.
Qed.

Lemma finder_1950_periods_inside_windows_witness :
  exists ps p,
    EarthRetrogradeFinder.find_earth_retrograde_periods unit
      (fun _ => Some tt) None
      (fun year month day => inject_Z (year * 12 + month))
      (fun _ _ _ => Some [10; 8; 9; 10]) "mars" (Name "MARS BARYCENTER")
      = Some ps /\
    In p ps /\
    start_jd p < end_jd p /\
    exists chunk_start,
      In chunk_start (py_range Calculator1950.START_YEAR
                               Calculator1950.END_YEAR
                               Calculator1950.chunk_years) /\
      inject_Z (chunk_start * 12 + 1) <= start_jd p /\
      end_jd p <=
      inject_Z (chunk_end Calculator1950.END_YEAR Calculator1950.chunk_years
                          chunk_start * 12 + 12).
Proof.
  destruct (EarthRetrogradeFinder.find_earth_retrograde_periods unit
              (fun _ => Some tt) None
              (fun year month day => inject_Z (year * 12 + month))
              (fun _ _ _ => Some [10; 8; 9; 10]) "mars"
              (Name "MARS BARYCENTER"))
    as [ps|] eqn:E; [|vm_compute in E; discriminate].
  destruct ps as [|p ps]; [vm_compute in E; discriminate|].
  exists (p :: ps), p. split; [reflexivity|]. split; [now left|].
  apply (finder_1950_periods_inside_windows unit
           (fun _ => Some tt) None
           (fun year month day => inject_Z (year * 12 + month))
           (fun _ _ _ => Some [10; 8; 9; 10]) "mars" (Name "MARS BARYCENTER")
           (p :: ps) p); [|exact E|now left].
  intros cs Hin.
  assert (Hend : (cs < chunk_end Calculator1950.END_YEAR
                         Calculator1950.chunk_years cs)%Z)
    by (apply (chunk_end_later Calculator1950.START_YEAR);
        [reflexivity|exact Hin]).
  rewrite <- Zlt_Qlt. lia.
Defined.

(** ** The scan: what one series can yield *)




Lemma chain_length times0 retrograde ps n :
  chain times0 retrograde ps n ->
  (2 * length ps <= n)%nat /\ (n <= length retrograde)%nat.
Proof.
  induction 1 as [|ps n p a b Hch IH Hna Hrun]; [simpl; lia|].
  destruct Hrun as [[Hab [_ [Hb _]]] _].
  assert (b < length retrograde)%nat by (apply nth_error_Some; congruence).
  rewrite length_app. simpl. lia.
Qed.

(** X14.  A series of [n] samples yields at most [(n - 1) / 2] periods:
    every period takes a retrograde pair of samples and the pair that ends
    it.  The one-pass extraction may add the run closed at the last sample,
    and yields at most [n / 2]. *)
Theorem period_count_bound :
  (forall c : Chunk,
      (2 * length (scan_chunk c []) <= pred (length (longitudes c)))%nat) /\
  (forall (times0 longitudes0 : list Q) (ps : list Period),
      GenerateTestData.extract_periods times0 longitudes0 = Some ps ->
      (2 * length ps <= length longitudes0)%nat).
Proof.
  split.
  - intro c. destruct (scan_chunk_chain c) as [n Hch].
    destruct (chain_length _ _ _ _ Hch) as [H1 H2].
    rewrite is_retrograde_length in H2. lia.
  - intros times0 longitudes0 ps E.
    destruct (gen_extract_shape _ _ _ E) as (st & n & _ & Hch & Hps).
    destruct (chain_length _ _ _ _ Hch) as [H1 H2].
    rewrite is_retrograde_length in H2.
    destruct Hps as [->|(s & a & b & Hn & [Hlt _] & _ & _ & ->)]; [lia|].
    rewrite is_retrograde_length in Hlt. rewrite length_app. simpl. lia.
Qed.

Lemma period_count_bound_witness :
  (2 * length [mkPeriod 0 1; mkPeriod 2 5]
   <= length [10; 9; 11; 10; 8; 7])%nat.
Proof.
  apply (proj2 period_count_bound [0; 1; 2; 3; 4; 5] [10; 9; 11; 10; 8; 7]).
  reflexivity.
Defined.

(** ** The count of retrograde days *)

Lemma retrograde_before_le (retrograde : list bool) (m n : nat) :
  (m <= n)%nat ->
  (retrograde_before retrograde m <= retrograde_before retrograde n)%nat.
Proof.
  intro H. unfold retrograde_before.
  rewrite <- (firstn_skipn m (firstn n retrograde)).
  rewrite firstn_firstn, Nat.min_l by assumption.
  rewrite count_occ_app. lia.
Qed.

Lemma retrograde_before_true (retrograde : list bool) (a : nat) :
  nth_error retrograde a = Some true ->
  retrograde_before retrograde (S a) = S (retrograde_before retrograde a).
Proof.
  intro H. unfold retrograde_before.
  rewrite (firstn_snoc retrograde a true H), count_occ_app. simpl. lia.
Qed.

Lemma chain_retrograde_before times0 retrograde ps n :
  chain times0 retrograde ps n ->
  (length ps <= retrograde_before retrograde n)%nat.
Proof.
  induction 1 as [|ps n p a b Hch IH Hna Hrun]; [simpl; lia|].
  destruct Hrun as [[Hab [Htrue _]] _].
  assert (Ha : nth_error retrograde a = Some true) by (apply Htrue; lia).
  pose proof (retrograde_before_le retrograde n a Hna).
  pose proof (retrograde_before_true retrograde a Ha).
  pose proof (retrograde_before_le retrograde (S a) (S b) ltac:(lia)).
  rewrite length_app. simpl. lia.
Qed.

Lemma retrograde_before_all (retrograde : list bool) (n : nat) :
  (retrograde_before retrograde n <= count_occ bool_dec retrograde true)%nat.
Proof.
  pose proof (retrograde_before_le retrograde n (Nat.max n (length retrograde))
                ltac:(lia)) as H.
  unfold retrograde_before in H at 2.
  rewrite firstn_all2 in H by lia. exact H.
Qed.

(** X15.  The count of retrograde days of debug_chiron_calculation.py is at
    most the number of samples less one (29 for its 30 samples), and the
    scan never finds more periods than there are retrograde days: with no
    retrograde day it finds none. *)
Theorem retrograde_days_bound (times0 longitudes0 : list Q) :
  (retrograde_days longitudes0 <= pred (length longitudes0))%nat /\
  (length (scan_chunk (mkChunk times0 longitudes0) [])
   <= retrograde_days longitudes0)%nat /\
  (retrograde_days longitudes0 = 0%nat ->
   scan_chunk (mkChunk times0 longitudes0) [] = []).
Proof.
  assert (Hscan : (length (scan_chunk (mkChunk times0 longitudes0) [])
                   <= retrograde_days longitudes0)%nat).
  { destruct (scan_chunk_chain (mkChunk times0 longitudes0)) as [n Hch].
    pose proof (chain_retrograde_before _ _ _ _ Hch) as H1.
    pose proof (retrograde_before_all (is_retrograde longitudes0) n) as H2.
    simpl in *. unfold retrograde_days. lia. }
  split; [|split; [exact Hscan|]].
  - unfold retrograde_days. rewrite <- is_retrograde_length.
    apply count_occ_bound.
  - intro H0. rewrite H0 in Hscan. apply length_zero_iff_nil. lia.
Qed.

(** ** The wraparound *)

(** X16.  For two longitudes in [0, 360) the two wraparound corrections
    bring the difference into [-180, 180] by adding 0, 360 or -360, and the
    pair is classified retrograde exactly when the raw difference is in
    [-180, 0) or above 180: a jump of exactly -180 counts as retrograde, a
    jump of exactly 180 does not. *)
Theorem wraparound_range (a b : Q) :
  0 <= a -> a < 360 -> 0 <= b -> b < 360 ->
  -180 <= wrap_below (wrap_above (b - a)) /\
  wrap_below (wrap_above (b - a)) <= 180 /\
  (wrap_below (wrap_above (b - a)) == b - a \/
   wrap_below (wrap_above (b - a)) == b - a - 360 \/
   wrap_below (wrap_above (b - a)) == b - a + 360) /\
  (is_retrograde [a; b] = [true] <->
   (-180 <= b - a /\ b - a < 0) \/ 180 < b - a).
Proof.
  intros Ha0 Ha Hb0 Hb.
  assert (E : is_retrograde [a; b] =
              [Qltb (wrap_below (wrap_above (b - a))) 0]) by reflexivity.
  rewrite E, wrap_normalized. clear E.
  assert (Hflag : [Qltb (normalized_delta (b - a)) 0] = [true] <->
                  normalized_delta (b - a) < 0).
  { rewrite <- Qltb_lt. split; intro H; [now inversion H|now rewrite H]. }
  rewrite Hflag. clear Hflag. unfold normalized_delta.
  destruct (Qltb 180 (b - a)) eqn:Hhi.
  - apply Qltb_lt in Hhi.
    split; [lra|]. split; [lra|]. split; [right; left; reflexivity|].
    split; [intros _; right; assumption|intros _; lra].
  - apply Qltb_ge in Hhi.
    destruct (Qltb (b - a) (-180)) eqn:Hlo.
    + apply Qltb_lt in Hlo.
      split; [lra|]. split; [lra|]. split; [right; right; reflexivity|].
      split; [intro H; lra|intros [[H1 H2]|H1]; lra].
    + apply Qltb_ge in Hlo.
      split; [lra|]. split; [lra|]. split; [left; reflexivity|].
      split; [intro H; left; lra|intros [[H1 H2]|H1]; lra].
Qed.

Lemma wraparound_range_witness :
  -180 <= wrap_below (wrap_above (2 - 355)) /\
  wrap_below (wrap_above (2 - 355)) <= 180 /\
  (wrap_below (wrap_above (2 - 355)) == 2 - 355 \/
   wrap_below (wrap_above (2 - 355)) == 2 - 355 - 360 \/
   wrap_below (wrap_above (2 - 355)) == 2 - 355 + 360) /\
  (is_retrograde [355; 2] = [true] <->
   (-180 <= 2 - 355 /\ 2 - 355 < 0) \/ 180 < 2 - 355).
Proof.
  apply (wraparound_range 355 2); unfold Qle, Qlt; simpl; lia.
Defined.

(** ** The per-body list *)

(** X17.  The scan of a chunk only appends: the periods accumulated from
    earlier chunks stay at the head of the list, unchanged, and what is
    appended does not depend on them.  The list a finder returns is
    therefore the concatenation, in the order of the loop, of what each
    observed chunk yields scanned on its own; no state of the scan passes
    from one chunk to the next. *)
Theorem finder_concatenates_chunk_scans :
  (forall (c : Chunk) (periods0 : list Period),
      scan_chunk c periods0 = periods0 ++ scan_chunk c []) /\
  (forall (START_YEAR END_YEAR chunk_years : Z)
          (observe : Z -> Z -> option Chunk),
      find_retrograde_periods START_YEAR END_YEAR chunk_years observe =
      flat_map (fun c => scan_chunk c [])
               (observed_chunks START_YEAR END_YEAR chunk_years observe) /\
      len (find_retrograde_periods START_YEAR END_YEAR chunk_years observe) =
      fold_right Z.add 0%Z
        (map (fun c => len (scan_chunk c []))
             (observed_chunks START_YEAR END_YEAR chunk_years observe))).
Proof.
  split; [exact scan_chunk_app|].
  intros START_YEAR END_YEAR chunk_years observe.
  rewrite find_retrograde_periods_chunks. split; [reflexivity|].
  induction (observed_chunks START_YEAR END_YEAR chunk_years observe)
    as [|c cs IH]; simpl; [reflexivity|].
  unfold len in *. rewrite length_app, Nat2Z.inj_add, IH. reflexivity.
Qed.

(** ** The dict of the results *)

Lemma dict_set_fresh {V : Type} (d : list (string * V)) (k : string) (v : V) :
  ~ In k (map fst d) -> dict_set d k v = d ++ [(k, v)].
Proof.
  induction d as [|[k0 v0] d IH]; simpl; intro H; [reflexivity|].
  destruct (String.eqb k0 k) eqn:E.
  - apply String.eqb_eq in E. exfalso. apply H. now left.
  - f_equal. apply IH. intro Hin. apply H. now right.
Qed.


Lemma observers_distinct : NoDup (map fst Calculator.PLANETS).
Proof.
  simpl. repeat constructor; simpl; intuition discriminate.
Qed.




Lemma calculate_fold START_YEAR END_YEAR chunk_years ephemeris
    (l : list (string * BodyKey)) :
  NoDup (map fst l) ->
  forall d entries,
    (forall item, In item l -> ~ In (fst item) (map fst d)) ->
    fold_left
      (fun acc item =>
         match acc with
         | None => None
         | Some planets =>
             match planet_entry START_YEAR END_YEAR chunk_years ephemeris
                     (fst item) (snd item) with
             | Some entry => Some (dict_set planets (fst item) entry)
             | None => None
             end
         end) l (Some d) = Some entries ->
    exists added,
      entries = d ++ added /\
      Forall2 (fun item e =>
                 fst e = fst item /\
                 planet_entry START_YEAR END_YEAR chunk_years ephemeris
                   (fst item) (snd item) = Some (snd e)) l added.
Proof.
  induction l as [|item l IH]; intros Hnd d entries Hfresh E;
    cbn [fold_left] in E; cbv beta in E.
  - inversion E; subst. exists []. split; [now rewrite app_nil_r|constructor].
  - inversion Hnd as [|? ? Hnotin Hnd']; subst.
    destruct (planet_entry START_YEAR END_YEAR chunk_years ephemeris
                (fst item) (snd item)) as [entry|] eqn:Ee.
    + rewrite dict_set_fresh in E by (apply Hfresh; now left).
      assert (Hfresh' : forall item', In item' l ->
                          ~ In (fst item') (map fst (d ++ [(fst item, entry)]))).
      { intros item' Hin'. rewrite map_app, in_app_iff. simpl.
        intros [H|[H|[]]].
        - apply (Hfresh item'); [now right|assumption].
        - apply Hnotin. rewrite H. now apply in_map. }
      destruct (IH Hnd' _ _ Hfresh' E) as [added [-> Hall]].
      exists ((fst item, entry) :: added). split; [now rewrite <- app_assoc|].
      constructor; [split; [reflexivity|exact Ee]|assumption].
    + rewrite fold_failed in E by reflexivity. discriminate.
Qed.

(** X19.  When the names of [PLANETS] are distinct and
    [calculate_all_retrogrades] returns, its result has exactly one entry
    per body, under the body's name and in the order of [PLANETS]; the entry
    holds the periods the finder returns for that body, with their number as
    [count]; a body that no chunk could observe has the entry with no
    period, count 0 and average 0. *)
Theorem calculate_all_retrogrades_entries
    (START_YEAR END_YEAR chunk_years : Z) (PLANETS : list (string * BodyKey))
    (ephemeris : string -> BodyKey -> Z -> Z -> option Chunk)
    (entries : list (string * Result.t)) :
  NoDup (map fst PLANETS) ->
  calculate_all_retrogrades START_YEAR END_YEAR chunk_years PLANETS ephemeris
  = Some entries ->
  map fst entries = map fst PLANETS /\
  (forall name key,
      In (name, key) PLANETS ->
      exists entry,
        In (name, entry) entries /\
        Result.periods entry =
          find_retrograde_periods START_YEAR END_YEAR chunk_years
            (ephemeris name key) /\
        Result.count entry = len (Result.periods entry)) /\
  (forall name key,
      In (name, key) PLANETS ->
      (forall chunk_start chunk_end0,
          ephemeris name key chunk_start chunk_end0 = None) ->
      In (name, Result.mk [] 0 0) entries).
Proof.
  intros Hnd E. unfold calculate_all_retrogrades in E.
  destruct (calculate_fold _ _ _ _ _ Hnd [] entries
              ltac:(intros item _ []) E) as [added [-> Hall]].
  simpl. clear E Hnd.
  assert (Hentry : forall name key,
             In (name, key) PLANETS ->
             exists entry,
               In (name, entry) added /\
               planet_entry START_YEAR END_YEAR chunk_years ephemeris name key
               = Some entry).
  { induction Hall as [|item e l added' [Hname He] Hall IH];
      intros name key Hin; [contradiction|].
    destruct Hin as [->|Hin].
    - exists (snd e). simpl in *. split; [|assumption].
      left. destruct e as [n0 e0]. simpl in *. now subst.
    - destruct (IH name key Hin) as [entry [H1 H2]].
      exists entry. split; [now right|assumption]. }
  split; [|split].
  - clear Hentry.
    induction Hall as [|item e l added' [Hname He] Hall IH]; simpl;
      [reflexivity|]. now rewrite Hname, IH.
  - intros name key Hin. destruct (Hentry name key Hin) as [entry [H1 H2]].
    exists entry. split; [assumption|].
    unfold planet_entry in H2.
    destruct (average_per_year START_YEAR END_YEAR _) as [avg|];
      [|discriminate].
    inversion H2; subst. split; reflexivity.
  - intros name key Hin Hnone.
    destruct (Hentry name key Hin) as [entry [H1 H2]].
    unfold planet_entry in H2.
    assert (Hempty : find_retrograde_periods START_YEAR END_YEAR chunk_years
                       (ephemeris name key) = []).
    { unfold find_retrograde_periods.
      induction (py_range START_YEAR END_YEAR chunk_years) as [|cs l IHl];
        simpl; [reflexivity|].
      unfold chunk_step at 2, observed. now rewrite Hnone. }
    rewrite Hempty in H2. simpl in H2. inversion H2; subst. exact H1.
Qed.

Lemma calculate_all_retrogrades_entries_witness :
  exists entries,
    Calculator1950.calculate_all_retrogrades
      (fun name key => Examples.two_chunks 1950 1960
                         Examples.window_a Examples.window_b) = Some entries /\
    map fst entries = map fst Calculator1950.OBSERVERS /\
    (forall name key,
        In (name, key) Calculator1950.OBSERVERS ->
        exists entry,
          In (name, entry) entries /\
          Result.periods entry =
            Calculator1950.find_earth_retrograde_periods
              (Examples.two_chunks 1950 1960
                 Examples.window_a Examples.window_b) /\
          Result.count entry = len (Result.periods entry)) /\
    (forall name key,
        In (name, key) Calculator1950.OBSERVERS ->
        (forall chunk_start chunk_end0,
            Examples.two_chunks 1950 1960 Examples.window_a Examples.window_b
              chunk_start chunk_end0 = None) ->
        In (name, Result.mk [] 0 0) entries).
Proof.
  destruct (Calculator1950.calculate_all_retrogrades
              (fun name key => Examples.two_chunks 1950 1960
                                 Examples.window_a Examples.window_b))
    as [entries|] eqn:E; [|vm_compute in E; discriminate].
  exists entries. split; [reflexivity|].
  apply (calculate_all_retrogrades_entries
           Calculator1950.START_YEAR Calculator1950.END_YEAR
           Calculator1950.chunk_years Calculator1950.OBSERVERS
           (fun name key => Examples.two_chunks 1950 1960
                              Examples.window_a Examples.window_b)).
  - exact observers_distinct.
  - exact E.
Defined.

(** ** test_mercury_retrograde.py *)

Lemma retro_body_sim dates i b st st' :
  (i < length dates)%nat ->
  same_scan dates st st' ->
  exists st2 st2',
    TestMercuryRetrograde.retro_body dates i b st = Some st2 /\
    loop_body (map inject_Z dates) i b st' = Done st2' /\
    same_scan dates st2 st2'.
Proof.
  intros Hi [Hflag [Hps Hopen]].
  destruct (nth_error dates i) as [d|] eqn:Ed;
    [|apply nth_error_None in Ed; lia].
  destruct st as [ir rs ps], st' as [ir' si ps'].
  unfold same_scan, TestMercuryRetrograde.retro_body, loop_body.
  simpl in *. subst ir' ps'.
  destruct b, ir; simpl.
  - eexists. eexists. split; [reflexivity|]. split; [reflexivity|].
    simpl. split; [reflexivity|]. split; [reflexivity|]. exact Hopen.
  - rewrite Ed. eexists. eexists. split; [reflexivity|].
    split; [reflexivity|].
    simpl. split; [reflexivity|]. split; [reflexivity|].
    intros _. exists i, d. split; [reflexivity|]. split; [reflexivity|].
    exact Ed.
  - destruct (Hopen eq_refl) as [s [d0 [Hs [Hd0 Hnth]]]]. subst si rs.
    rewrite Ed.
    rewrite (map_nth_error inject_Z _ _ Hnth), (map_nth_error inject_Z _ _ Ed).
    eexists. eexists. split; [reflexivity|]. split; [reflexivity|].
    simpl. split; [reflexivity|]. split; [|discriminate].
    now rewrite map_app.
  - eexists. eexists. split; [reflexivity|]. split; [reflexivity|].
    simpl. split; [reflexivity|]. split; [reflexivity|]. exact Hopen.
Qed.

Lemma retro_from_sim dates retrograde :
  forall i st st',
    (i + length retrograde <= length dates)%nat ->
    same_scan dates st st' ->
    exists st2 st2',
      TestMercuryRetrograde.retro_from dates i retrograde st = Some st2 /\
      scan_from (map inject_Z dates) i retrograde st' = Done st2' /\
      same_scan dates st2 st2'.
Proof.
  induction retrograde as [|b rest IH]; intros i st st' Hlen Hrel; simpl in *.
  - exists st, st'. repeat split; apply Hrel.
  - destruct (retro_body_sim dates i b st st' ltac:(lia) Hrel)
      as [st2 [st2' [E1 [E2 Hrel2]]]].
    rewrite E1, E2. apply IH; [lia|assumption].
Qed.

(** X20.  On one longitude per date (or fewer), the scan of
    [test_earth_retrograde_from_mercury] runs through without an
    [IndexError], and the periods it finds are the periods the scan of the
    calculators finds on the same samples. *)
Theorem test_scan_is_calculator_scan (dates : list Z) (longitudes0 : list Q) :
  (length longitudes0 <= length dates)%nat ->
  exists found,
    TestMercuryRetrograde.find_earth_retro_periods dates longitudes0
    = Some found /\
    map TestMercuryRetrograde.as_period found
    = scan_chunk (mkChunk (map inject_Z dates) longitudes0) [].
Proof.
  intro Hlen.
  destruct (retro_from_sim dates (is_retrograde longitudes0) 0
              (TestMercuryRetrograde.mkRetro false None [])
              (mkScan false None []))
    as [st2 [st2' [E1 [E2 [_ [Hps _]]]]]].
  - rewrite is_retrograde_length. lia.
  - repeat split; simpl; [discriminate].
  - exists (TestMercuryRetrograde.earth_retro_periods st2). split.
    + unfold TestMercuryRetrograde.find_earth_retro_periods. now rewrite E1.
    + unfold scan_chunk, scan. simpl. rewrite E2. exact Hps.
Qed.

Lemma test_scan_is_calculator_scan_witness :
  (length [10; 12; 11; 9; 13] <= length [100; 101; 102; 103; 104]%Z)%nat /\
  exists found,
    TestMercuryRetrograde.find_earth_retro_periods
      [100; 101; 102; 103; 104]%Z [10; 12; 11; 9; 13] = Some found /\
    map TestMercuryRetrograde.as_period found
    = scan_chunk (mkChunk (map inject_Z [100; 101; 102; 103; 104]%Z)
                    [10; 12; 11; 9; 13]) [].
Proof.
  split; [simpl; lia|].
  apply (test_scan_is_calculator_scan [100; 101; 102; 103; 104]%Z
           [10; 12; 11; 9; 13]).
  simpl; lia.
Defined.

Lemma same_dates_eq start_date end_date p :
  TestMercuryRetrograde.same_dates start_date end_date p = true <->
  p = TestMercuryRetrograde.mkDates start_date end_date.
Proof.
  unfold TestMercuryRetrograde.same_dates. destruct p as [s e]. simpl.
  rewrite andb_true_iff, !Z.eqb_eq. split.
  - intros [-> ->]. reflexivity.
  - intro H. inversion H. split; reflexivity.
Qed.

Lemma within_two_days_iff start_date end_date p :
  TestMercuryRetrograde.within_two_days start_date end_date p = true <->
  (Z.abs (TestMercuryRetrograde.start p - start_date) <= 2)%Z /\
  (Z.abs (TestMercuryRetrograde.end_ p - end_date) <= 2)%Z.
Proof.
  unfold TestMercuryRetrograde.within_two_days.
  now rewrite andb_true_iff, !Z.leb_le.
Qed.

Lemma same_dates_within start_date end_date p :
  TestMercuryRetrograde.same_dates start_date end_date p = true ->
  TestMercuryRetrograde.within_two_days start_date end_date p = true.
Proof.
  intro H. apply same_dates_eq in H. subst p.
  apply within_two_days_iff. simpl. lia.
Qed.

Lemma match_periods_exact start_date end_date found :
  forall st,
    TestMercuryRetrograde.exact_match
      (TestMercuryRetrograde.match_periods start_date end_date found st)
    = true <->
    TestMercuryRetrograde.exact_match st = true \/
    In (TestMercuryRetrograde.mkDates start_date end_date) found.
Proof.
  induction found as [|p rest IH]; intro st; simpl.
  - tauto.
  - destruct (TestMercuryRetrograde.same_dates start_date end_date p) eqn:Es.
    + apply same_dates_eq in Es. subst p. simpl. tauto.
    + assert (Hne : p <> TestMercuryRetrograde.mkDates start_date end_date).
      { intro H. apply same_dates_eq in H. congruence. }
      destruct (TestMercuryRetrograde.within_two_days start_date end_date p);
        rewrite IH; simpl; split; intros [H|H]; auto;
        destruct H as [H|H]; auto; contradiction.
Qed.

Lemma match_periods_exact_best start_date end_date found :
  forall st,
    TestMercuryRetrograde.exact_match st = false ->
    TestMercuryRetrograde.exact_match
      (TestMercuryRetrograde.match_periods start_date end_date found st)
    = true ->
    TestMercuryRetrograde.best_match
      (TestMercuryRetrograde.match_periods start_date end_date found st)
    = Some (TestMercuryRetrograde.mkDates start_date end_date).
Proof.
  induction found as [|p rest IH]; intros st Hst; simpl.
  - congruence.
  - destruct (TestMercuryRetrograde.same_dates start_date end_date p) eqn:Es.
    + apply same_dates_eq in Es. subst p. reflexivity.
    + destruct (TestMercuryRetrograde.within_two_days start_date end_date p);
        apply IH; assumption.
Qed.

Lemma match_periods_best (P : TestMercuryRetrograde.DatePeriod -> Prop)
    start_date end_date found :
  forall st,
    (forall p, In p found ->
               TestMercuryRetrograde.within_two_days start_date end_date p
               = true -> P p) ->
    (TestMercuryRetrograde.close_match st = true ->
     exists p, TestMercuryRetrograde.best_match st = Some p /\ P p) ->
    TestMercuryRetrograde.close_match
      (TestMercuryRetrograde.match_periods start_date end_date found st)
    = true ->
    exists p,
      TestMercuryRetrograde.best_match
        (TestMercuryRetrograde.match_periods start_date end_date found st)
      = Some p /\ P p.
Proof.
  induction found as [|p rest IH]; intros st HP Hst; simpl.
  - exact Hst.
  - destruct (TestMercuryRetrograde.same_dates start_date end_date p) eqn:Es.
    + simpl. intros _. exists p. split; [reflexivity|].
      apply HP; [now left|now apply same_dates_within].
    + destruct (TestMercuryRetrograde.within_two_days start_date end_date p)
        eqn:Ew.
      * apply IH; [intros q Hq; apply HP; now right|].
        simpl. intros _. exists p. split; [reflexivity|].
        apply HP; [now left|assumption].
      * apply IH; [intros q Hq; apply HP; now right|assumption].
Qed.

Lemma match_periods_close start_date end_date found :
  forall st,
    TestMercuryRetrograde.exact_match
      (TestMercuryRetrograde.match_periods start_date end_date found st)
    = false ->
    (TestMercuryRetrograde.close_match
       (TestMercuryRetrograde.match_periods start_date end_date found st)
     = true <->
     TestMercuryRetrograde.close_match st = true \/
     exists p,
       In p found /\
       TestMercuryRetrograde.within_two_days start_date end_date p = true).
Proof.
  induction found as [|p rest IH]; intro st; simpl.
  - intros _. split; [now left|]. intros [H|[p [[] _]]]. exact H.
  - destruct (TestMercuryRetrograde.same_dates start_date end_date p) eqn:Es.
    + simpl. discriminate.
    + destruct (TestMercuryRetrograde.within_two_days start_date end_date p)
        eqn:Ew; intro Hex; rewrite (IH _ Hex); simpl.
      * split; [|now left]. intros _. right. exists p. split; [now left|].
        exact Ew.
      * split.
        -- intros [H|[q [Hq Hw]]]; [now left|].
           right. exists q. split; [now right|exact Hw].
        -- intros [H|[q [[Hq|Hq] Hw]]]; [now left| |].
           ++ subst q. congruence.
           ++ right. exists q. split; assumption.
Qed.

(** X21.  The matching loop of [test_earth_retrograde_from_mercury]: the
    match is exact exactly when the period with the two dates of the row is
    among the periods found, and then it is the best match; without an exact
    match the match is close exactly when a period found lies within two
    days at both ends; and whenever the match is close, the best match is a
    period found that lies within two days at both ends, so that the
    report of the close match never reads a missing best match. *)
Theorem find_match_verdict (start_date end_date : Z)
    (found : list TestMercuryRetrograde.DatePeriod) :
  (TestMercuryRetrograde.exact_match
     (TestMercuryRetrograde.find_match start_date end_date found) = true <->
   In (TestMercuryRetrograde.mkDates start_date end_date) found) /\
  (TestMercuryRetrograde.exact_match
     (TestMercuryRetrograde.find_match start_date end_date found) = true ->
   TestMercuryRetrograde.best_match
     (TestMercuryRetrograde.find_match start_date end_date found)
   = Some (TestMercuryRetrograde.mkDates start_date end_date)) /\
  (TestMercuryRetrograde.exact_match
     (TestMercuryRetrograde.find_match start_date end_date found) = false ->
   (TestMercuryRetrograde.close_match
      (TestMercuryRetrograde.find_match start_date end_date found) = true <->
    exists p,
      In p found /\
      (Z.abs (TestMercuryRetrograde.start p - start_date) <= 2)%Z /\
      (Z.abs (TestMercuryRetrograde.end_ p - end_date) <= 2)%Z)) /\
  (TestMercuryRetrograde.close_match
     (TestMercuryRetrograde.find_match start_date end_date found) = true ->
   exists p,
     TestMercuryRetrograde.best_match
       (TestMercuryRetrograde.find_match start_date end_date found) = Some p /\
     In p found /\
     (Z.abs (TestMercuryRetrograde.start p - start_date) <= 2)%Z /\
     (Z.abs (TestMercuryRetrograde.end_ p - end_date) <= 2)%Z).
Proof.
  unfold TestMercuryRetrograde.find_match.
  split; [|split; [|split]].
  - rewrite match_periods_exact. simpl. split; [|now right].
    intros [H|H]; [discriminate|exact H].
  - apply match_periods_exact_best. reflexivity.
  - intro Hex. rewrite (match_periods_close _ _ _ _ Hex). simpl. split.
    + intros [H|[p [Hin Hw]]]; [discriminate|].
      exists p. split; [exact Hin|]. now apply within_two_days_iff.
    + intros [p [Hin Hw]]. right. exists p. split; [exact Hin|].
      now apply within_two_days_iff.
  - apply (match_periods_best
             (fun p =>
                In p found /\
                (Z.abs (TestMercuryRetrograde.start p - start_date) <= 2)%Z /\
                (Z.abs (TestMercuryRetrograde.end_ p - end_date) <= 2)%Z)).
    + intros p Hin Hw. split; [exact Hin|]. now apply within_two_days_iff.
    + simpl. discriminate.
Qed.

Lemma find_earth_retro_periods_defined dates longitudes0 :
  (length longitudes0 <= length dates)%nat ->
  exists found,
    TestMercuryRetrograde.find_earth_retro_periods dates longitudes0
    = Some found.
Proof.
  intro Hlen.
  destruct (retro_from_sim dates (is_retrograde longitudes0) 0
              (TestMercuryRetrograde.mkRetro false None [])
              (mkScan false None []))
    as [st2 [st2' [E1 _]]].
  - rewrite is_retrograde_length. lia.
  - repeat split; simpl; [discriminate].
  - exists (TestMercuryRetrograde.earth_retro_periods st2).
    unfold TestMercuryRetrograde.find_earth_retro_periods. now rewrite E1.
Qed.

Lemma test_period_defined observe period :
  (forall dates, exists lon,
      observe dates = Some lon /\ length lon = length dates) ->
  exists m, TestMercuryRetrograde.test_period observe period = Some m.
Proof.
  intro Hobs. unfold TestMercuryRetrograde.test_period.
  destruct (Hobs (TestMercuryRetrograde.check_dates
                    (TestMercuryRetrograde.start period)
                    (TestMercuryRetrograde.end_ period)))
    as [lon [-> Hlen]].
  destruct (find_earth_retro_periods_defined
              (TestMercuryRetrograde.check_dates
                 (TestMercuryRetrograde.start period)
                 (TestMercuryRetrograde.end_ period)) lon ltac:(lia))
    as [found ->].
  eexists. reflexivity.
Qed.

Lemma count_period_defined observe period m c :
  TestMercuryRetrograde.test_period observe period = Some m ->
  exists c',
    TestMercuryRetrograde.count_period m c = Some c' /\
    fst c' =
      (fst c + (if TestMercuryRetrograde.exact_match m then 1 else 0))%Z /\
    (fst c' + snd c' = fst c + snd c + 1)%Z.
Proof.
  unfold TestMercuryRetrograde.test_period. intro E.
  destruct (observe _) as [lon|]; [|discriminate].
  destruct (TestMercuryRetrograde.find_earth_retro_periods _ lon)
    as [found|]; [|discriminate].
  inversion E as [Em]. clear E.
  destruct c as [matches0 mismatches0].
  unfold TestMercuryRetrograde.count_period.
  destruct (TestMercuryRetrograde.exact_match _) eqn:Eex.
  - eexists. split; [reflexivity|]. simpl. lia.
  - destruct (TestMercuryRetrograde.close_match _) eqn:Ecl.
    + unfold TestMercuryRetrograde.find_match in *.
      pose proof (match_periods_best (fun _ => True)
                    (TestMercuryRetrograde.start period)
                    (TestMercuryRetrograde.end_ period) found
                    (TestMercuryRetrograde.mkMatch false false None)
                    (fun _ _ _ => I)) as Hbest.
      simpl in Hbest.
      assert (Hnone : false = true ->
                      exists p : TestMercuryRetrograde.DatePeriod,
                        None = Some p /\ True) by discriminate.
      destruct (Hbest Hnone Ecl) as [p [-> _]].
      eexists. split; [reflexivity|]. simpl. lia.
    + eexists. split; [reflexivity|]. simpl. lia.
Qed.

Lemma test_loop_counts observe rows :
  (forall dates, exists lon,
      observe dates = Some lon /\ length lon = length dates) ->
  forall c, exists c',
    TestMercuryRetrograde.test_loop observe rows c = Some c' /\
    fst c' =
      (fst c +
       len (filter (TestMercuryRetrograde.found_exactly observe) rows))%Z /\
    (fst c' + snd c' = fst c + snd c + len rows)%Z.
Proof.
  intro Hobs. unfold len.
  induction rows as [|period rest IH]; intro c; simpl.
  - exists c. split; [reflexivity|]. lia.
  - destruct (test_period_defined observe period Hobs) as [m Em].
    destruct (count_period_defined observe period m c Em)
      as [c1 [Ec1 [Hm Ht]]].
    unfold TestMercuryRetrograde.found_exactly at 1.
    rewrite Em, Ec1.
    destruct (IH c1) as [c' [Ec' [Hm' Ht']]].
    exists c'. split; [exact Ec'|].
    destruct (TestMercuryRetrograde.exact_match m); simpl length; lia.
Qed.

(** X22.  When skyfield returns one longitude per date,
    [test_earth_retrograde_from_mercury] reaches its report: the exact
    matches are the rows among the first ten that are found with their own
    two dates, the two counters add up to the number of rows tested (ten at
    most), so that every row without an exact match is counted with the
    close ones; the rate raises [ZeroDivisionError] exactly when the CSV has
    no row, and lies between 0 and 100 otherwise. *)
Theorem test_report (observe : list Z -> option (list Q))
    (mercury_retrogrades : list TestMercuryRetrograde.DatePeriod) :
  (forall dates, exists lon,
      observe dates = Some lon /\ length lon = length dates) ->
  exists r,
    TestMercuryRetrograde.test_earth_retrograde_from_mercury observe
      mercury_retrogrades = Some r /\
    TestMercuryRetrograde.matches r =
      len (filter (TestMercuryRetrograde.found_exactly observe)
             (firstn 10 mercury_retrogrades)) /\
    (TestMercuryRetrograde.matches r + TestMercuryRetrograde.mismatches r
     = Z.min 10 (len mercury_retrogrades))%Z /\
    (TestMercuryRetrograde.rate r = None <-> mercury_retrogrades = []) /\
    (forall q, TestMercuryRetrograde.rate r = Some q -> 0 <= q /\ q <= 100).
Proof.
  intro Hobs.
  unfold TestMercuryRetrograde.test_earth_retrograde_from_mercury.
  destruct (test_loop_counts observe (firstn 10 mercury_retrogrades) Hobs
              (0%Z, 0%Z)) as [[matches0 mismatches0] [-> [Hm Ht]]].
  cbn [fst snd] in Hm, Ht.
  assert (Hlen : len (firstn 10 mercury_retrogrades)
                 = Z.min 10 (len mercury_retrogrades)).
  { unfold len. rewrite length_firstn. lia. }
  assert (Hle : (0 <= matches0 <= matches0 + mismatches0)%Z).
  { split; [unfold len in Hm; lia|].
    rewrite Ht, Hm. unfold len.
    pose proof (filter_length_le
                  (TestMercuryRetrograde.found_exactly observe)
                  (firstn 10 mercury_retrogrades)). lia. }
  eexists. split; [reflexivity|].
  cbn [TestMercuryRetrograde.matches TestMercuryRetrograde.mismatches
       TestMercuryRetrograde.rate].
  split; [lia|]. split; [lia|].
  unfold py_truediv.
  destruct (matches0 + mismatches0 =? 0)%Z eqn:E0; simpl.
  - apply Z.eqb_eq in E0. split.
    + split; [intros _|reflexivity].
      destruct mercury_retrogrades; [reflexivity|].
      unfold len in *. simpl length in *. lia.
    + discriminate.
  - apply Z.eqb_neq in E0. split.
    + split; [discriminate|]. intros ->. unfold len in *. simpl in *. lia.
    + intros q Hq. inversion Hq as [Eq]. clear Hq Eq.
      assert (Hpos : 0 < inject_Z (matches0 + mismatches0)).
      { change 0 with (inject_Z 0). rewrite <- Zlt_Qlt. lia. }
      assert (H0 : 0 <= inject_Z matches0).
      { change 0 with (inject_Z 0). rewrite <- Zle_Qle. lia. }
      assert (H1 : inject_Z matches0 <= inject_Z (matches0 + mismatches0)).
      { rewrite <- Zle_Qle. lia. }
      assert (Hlo : 0 <= inject_Z matches0
                         / inject_Z (matches0 + mismatches0)).
      { apply Qle_shift_div_l; [exact Hpos|]. lra. }
      assert (Hhi : inject_Z matches0
                    / inject_Z (matches0 + mismatches0) <= 1).
      { apply Qle_shift_div_r; [exact Hpos|]. lra. }
      split; lra.
Qed.

Lemma test_report_witness :
  exists r,
    TestMercuryRetrograde.test_earth_retrograde_from_mercury
      (fun dates =>
         Some (map (fun d => inject_Z (Z.abs (d - 10) - Z.abs (d - 4))%Z
                             + inject_Z d) dates))
      [TestMercuryRetrograde.mkDates 4 10] = Some r /\
    TestMercuryRetrograde.matches r = 1%Z /\
    TestMercuryRetrograde.rate r = Some ((1 / 1) * 100).
Proof.
  destruct (test_report
              (fun dates =>
                 Some (map (fun d => inject_Z (Z.abs (d - 10) - Z.abs (d - 4))%Z
                                     + inject_Z d) dates))
              [TestMercuryRetrograde.mkDates 4 10])
    as [r [Er [Hm [Ht [Hr Hq]]]]].
  - intro dates. eexists. split; [reflexivity|]. apply length_map.
  - exists r. split; [exact Er|].
    vm_compute in Er. inversion Er. split; reflexivity.
Defined.

(** ** The asteroid files *)

Lemma load_first_spec Kernel (load : string -> option Kernel) files :
  match AsteroidFiles.load_first Kernel load files with
  | Some kernel =>
      exists before ast_file after,
        files = before ++ ast_file :: after /\
        load ast_file = Some kernel /\
        forall f, In f before -> load f = None
  | None => forall f, In f files -> load f = None
  end.
Proof.
  induction files as [|f rest IH]; simpl.
  - intros f [].
  - destruct (load f) as [kernel|] eqn:Ef.
    + exists [], f, rest. split; [reflexivity|]. split; [exact Ef|].
      intros g [].
    + destruct (AsteroidFiles.load_first Kernel load rest) as [kernel|].
      * destruct IH as [before [g [after [-> [Hg Hbefore]]]]].
        exists (f :: before), g, after. split; [reflexivity|].
        split; [exact Hg|]. intros h [<-|Hh]; [exact Ef|now apply Hbefore].
      * intros g [<-|Hg]; [exact Ef|now apply IH].
Qed.

Lemma try_files_spec Kernel (load : string -> option Kernel) has_chiron
    files :
  match AsteroidFiles.try_files Kernel load has_chiron files with
  | Some ast_file =>
      exists before after,
        files = before ++ ast_file :: after /\
        AsteroidFiles.holds_chiron Kernel load has_chiron ast_file = true /\
        forall f, In f before ->
                  AsteroidFiles.holds_chiron Kernel load has_chiron f = false
  | None =>
      forall f, In f files ->
                AsteroidFiles.holds_chiron Kernel load has_chiron f = false
  end.
Proof.
  induction files as [|f rest IH]; simpl.
  - intros f [].
  - assert (Hnext :
      AsteroidFiles.holds_chiron Kernel load has_chiron f = false ->
      match AsteroidFiles.try_files Kernel load has_chiron rest with
      | Some ast_file =>
          exists before after,
            f :: rest = before ++ ast_file :: after /\
            AsteroidFiles.holds_chiron Kernel load has_chiron ast_file
            = true /\
            forall g, In g before ->
                      AsteroidFiles.holds_chiron Kernel load has_chiron g
                      = false
      | None =>
          forall g, f = g \/ In g rest ->
                    AsteroidFiles.holds_chiron Kernel load has_chiron g
                    = false
      end).
    { intro Hf.
      destruct (AsteroidFiles.try_files Kernel load has_chiron rest) as [g|].
      - destruct IH as [before [after [-> [Hg Hbefore]]]].
        exists (f :: before), after. split; [reflexivity|].
        split; [exact Hg|]. intros h [<-|Hh]; [exact Hf|now apply Hbefore].
      - intros g [<-|Hg]; [exact Hf|now apply IH]. }
    unfold AsteroidFiles.holds_chiron at 1 in Hnext.
    destruct (load f) as [kernel|] eqn:Ef; [|now apply Hnext].
    destruct (has_chiron kernel) eqn:Ec; [|now apply Hnext].
    exists [], rest. split; [reflexivity|]. split.
    + unfold AsteroidFiles.holds_chiron. now rewrite Ef.
    + intros g [].
Qed.

(** X23.  [EarthRetrogradeFinder.__init__] keeps the first of its three
    asteroid files that loads, and none when none loads;
    [try_asteroid_ephemeris_files] returns the first of its four files that
    loads and holds Chiron, and [None] when there is none.  So when the
    finder's asteroid ephemeris holds Chiron the script names a file that
    loads that ephemeris, and when the finder has no asteroid ephemeris the
    script can only name its fourth file. *)
Theorem asteroid_file_choice (Kernel : Type)
    (load : string -> option Kernel) (has_chiron : Kernel -> bool) :
  (forall kernel,
      AsteroidFiles.asteroid_eph Kernel load = Some kernel ->
      exists before ast_file after,
        AsteroidFiles.asteroid_files_to_try = before ++ ast_file :: after /\
        load ast_file = Some kernel /\
        forall f, In f before -> load f = None) /\
  (AsteroidFiles.asteroid_eph Kernel load = None <->
   forall f, In f AsteroidFiles.asteroid_files_to_try -> load f = None) /\
  (forall ast_file,
      AsteroidFiles.try_asteroid_ephemeris_files Kernel load has_chiron
      = Some ast_file ->
      exists before after,
        AsteroidFiles.asteroid_files = before ++ ast_file :: after /\
        AsteroidFiles.holds_chiron Kernel load has_chiron ast_file = true /\
        forall f, In f before ->
                  AsteroidFiles.holds_chiron Kernel load has_chiron f
                  = false) /\
  (AsteroidFiles.try_asteroid_ephemeris_files Kernel load has_chiron = None
   <-> forall f, In f AsteroidFiles.asteroid_files ->
                 AsteroidFiles.holds_chiron Kernel load has_chiron f
                 = false) /\
  (forall kernel,
      AsteroidFiles.asteroid_eph Kernel load = Some kernel ->
      has_chiron kernel = true ->
      exists ast_file,
        AsteroidFiles.try_asteroid_ephemeris_files Kernel load has_chiron
        = Some ast_file /\
        load ast_file = Some kernel) /\
  (AsteroidFiles.asteroid_eph Kernel load = None ->
   forall ast_file,
     AsteroidFiles.try_asteroid_ephemeris_files Kernel load has_chiron
     = Some ast_file ->
     ast_file = "sb432s.bsp"%string).
Proof.
  pose proof (load_first_spec Kernel load AsteroidFiles.asteroid_files_to_try)
    as Hfirst.
  pose proof (try_files_spec Kernel load has_chiron
                AsteroidFiles.asteroid_files) as Htry.
  fold (AsteroidFiles.asteroid_eph Kernel load) in Hfirst.
  fold (AsteroidFiles.try_asteroid_ephemeris_files Kernel load has_chiron)
    in Htry.
  split; [|split; [|split; [|split; [|split]]]].
  - intros kernel E. rewrite E in Hfirst. exact Hfirst.
  - split.
    + intro E. rewrite E in Hfirst. exact Hfirst.
    + intro Hnone.
      destruct (AsteroidFiles.asteroid_eph Kernel load) as [kernel|];
        [|reflexivity].
      destruct Hfirst as [before [f [after [Hfiles [Hf _]]]]].
      rewrite Hnone in Hf; [discriminate|].
      rewrite Hfiles, in_app_iff. right. now left.
  - intros ast_file E. rewrite E in Htry. exact Htry.
  - split.
    + intro E. rewrite E in Htry. exact Htry.
    + intro Hnone.
      destruct (AsteroidFiles.try_asteroid_ephemeris_files Kernel load
                  has_chiron) as [f|]; [|reflexivity].
      destruct Htry as [before [after [Hfiles [Hf _]]]].
      rewrite Hnone in Hf; [discriminate|].
      rewrite Hfiles, in_app_iff. right. now left.
  - clear Hfirst Htry.
    unfold AsteroidFiles.asteroid_eph,
      AsteroidFiles.try_asteroid_ephemeris_files,
      AsteroidFiles.asteroid_files_to_try, AsteroidFiles.asteroid_files.
    cbn [AsteroidFiles.load_first AsteroidFiles.try_files].
    intros kernel E Hc.
    destruct (load "sb441-n16.bsp"%string) as [k1|] eqn:E1.
    { inversion E; subst k1. rewrite Hc. eexists. split; [reflexivity|].
      exact E1. }
    destruct (load "sb441.bsp"%string) as [k2|] eqn:E2.
    { inversion E; subst k2. rewrite Hc. eexists. split; [reflexivity|].
      exact E2. }
    destruct (load "asteroids.bsp"%string) as [k3|] eqn:E3;
      [|discriminate].
    inversion E; subst k3. rewrite Hc. eexists. split; [reflexivity|].
    exact E3.
  - clear Hfirst Htry.
    unfold AsteroidFiles.asteroid_eph,
      AsteroidFiles.try_asteroid_ephemeris_files,
      AsteroidFiles.asteroid_files_to_try, AsteroidFiles.asteroid_files.
    cbn [AsteroidFiles.load_first AsteroidFiles.try_files].
    intros E ast_file.
    destruct (load "sb441-n16.bsp"%string) as [k1|]; [discriminate|].
    destruct (load "sb441.bsp"%string) as [k2|]; [discriminate|].
    destruct (load "asteroids.bsp"%string) as [k3|]; [discriminate|].
    destruct (load "sb432s.bsp"%string) as [k4|]; [|discriminate].
    destruct (has_chiron k4); [|discriminate].
    intro H. now inversion H.
Qed.
